(** * ClientFlow AI: a shallow embedding of the automation pipeline, the
    client and priority views and the analysis normalisers.

    Sources: [unnamed/part_000] and [unnamed/part_001] (automation-executor,
    two versions), [src/hooks/useClients.tsx], [src/hooks/useAutomations.tsx],
    [src/components/dashboard/PriorityClients.tsx], [src/lib/openai-config.ts]. *)

From stdpp Require Import base gmap strings list.
From Stdlib Require Import ZArith Ascii String Lia Sorted.

Open Scope string_scope.
Set Warnings "-register-all".

(* ================================================================= *)
(** ** JavaScript values *)

(** The values that flow through the untyped ([any]) parts of the code.
    [JUndef] is [undefined] (a missing property); numbers are integers. *)
Inductive jsval :=
| JUndef
| JNull
| JBool (b : bool)
| JNum (z : Z)
| JStr (s : string)
| JArr (l : list jsval)
| JObj (fields : list (string * jsval)).

(** JavaScript truthiness. *)
Definition truthy (v : jsval) : bool :=
  match v with
  | JUndef | JNull => false
  | JBool b => b
  | JNum z => negb (Z.eqb z 0)
  | JStr s => negb (String.eqb s "")
  | JArr _ | JObj _ => true
  end.

(** [a || b] on JavaScript values. *)
Definition js_or (a b : jsval) : jsval := if truthy a then a else b.

(** An optional string field ([string | null | undefined]); [None] is
    [null]/[undefined]. *)
Definition str_truthy (o : option string) : bool :=
  match o with Some s => negb (String.eqb s "") | None => false end.

(** [a || b] on optional strings. *)
Definition or_str (a b : option string) : option string :=
  if str_truthy a then a else b.

(** [a || "default"] on optional strings. *)
Definition or_default (a : option string) (d : string) : string :=
  match a with Some s => if String.eqb s "" then d else s | None => d end.

(** Template-literal interpolation of an optional string. *)
Definition show_opt (o : option string) : string :=
  match o with Some s => s | None => "undefined" end.

(* ================================================================= *)
(** ** Records of the automation executor *)

(** [automation.config] fields read by the handlers. *)
Record Config := mkConfig {
  email_message : option string;
  email_send_date : option string;
  email_subject : option string;
  client_id : option string;
  meeting_name : option string;
  email_content : option string;
}.

Definition empty_config : Config :=
  mkConfig None None None None None None.

(** An automation row as passed to [executeAutomation]. *)
Record Automation := mkAutomation {
  automation_id : option string;
  id : option string;
  name : option string;
  action_type_type : option string;
  action_type : option string;
  is_enabled : option bool;
  is_active : option bool;
  config : option Config;
}.

Definition bool_truthy (o : option bool) : bool :=
  match o with Some b => b | None => false end.

(** [data] of an [AutomationExecutionResult]. *)
Inductive ResultData :=
| RDEmail (to subject : string) (emailId : option string)
| RDMeeting (to meetingName : string) (emailId : option string)
| RDScheduled (sendDate : string)
| RDSimulated (to : option string) (content : string)
| RDSummary (clientId clientName summary : string).

(** [AutomationExecutionResult]. *)
Record ExecResult := mkResult {
  success : bool;
  message : string;
  data : option ResultData;
}.

(** A thrown [Error]; only its [message] is ever read. *)
Record Error := mkError { err_message : string }.

(* ================================================================= *)
(** ** Remote calls and the responses of the backend *)

(** Every remote call the executor makes, in the order it makes them. *)
Inductive Call :=
| InsertRun (automation_id : option string)
    (** [automation_runs.insert({automation_status: "running", ...})] *)
| UpdateRun (run_id : string) (status : string) (error_message : option string)
    (result_data : option ResultData)
    (** [automation_runs.update(...).eq("id", run.id)] *)
| SelectClientEmail (client_id : string)
    (** [clients.select("email, client_id").eq("client_id", ..).single()] *)
| GetSession
    (** [supabase.auth.getSession()] *)
| InvokeSendEmail (to subject : string)
    (** [supabase.functions.invoke("send-email", ...)] *)
| SelectClientBy (column value : string)
    (** [clients.select("*").eq(column, value).single()] *)
| SelectDeals (client_id : string)
| SelectInteractions (client_id : string)
| SelectPrioritization (client_id : string)
| FetchChatCompletion (max_tokens : Z)
    (** [fetch("https://api.openai.com/v1/chat/completions")] *)
| DeleteRuns (automation_id : string)
    (** [automation_runs.delete().eq("automation_id", id)] *)
| DeleteAutomation (automation_id : string)
    (** [automations.delete().eq("automation_id", id)] *)
| SelectAutomations.

(** Calls that write to a table. *)
Definition is_write (c : Call) : bool :=
  match c with
  | InsertRun _ | UpdateRun _ _ _ _ | DeleteRuns _ | DeleteAutomation _ => true
  | _ => false
  end.

(** Calls to an HTTP API that performs the automation's side effect. *)
Definition is_api_call (c : Call) : bool :=
  match c with
  | InvokeSendEmail _ _ | FetchChatCompletion _ => true
  | _ => false
  end.

(** The row returned by a [clients] query. *)
Record ClientRow := mkClientRow {
  cr_client_id : option string;
  cr_id : option string;
  cr_name : option string;
  cr_client_name : option string;
  cr_email : option string;
}.

(** [{ data, error }] of a [.single()] query: an error carries [code] and
    [message]. *)
Inductive Single (A : Type) :=
| SOk (a : A)
| SErr (code : string) (msg : option string).
Arguments SOk {A} a.
Arguments SErr {A} code msg.

(** [data] of the ["send-email"] function. *)
Record SendData := mkSendData {
  sd_success : bool;
  sd_message : option string;
  sd_error : option string;
  sd_id : option string;
}.

(** [{ data, error }] of [functions.invoke]. *)
Inductive InvokeResp :=
| InvError (msg : option string)
| InvData (d : option SendData).

(** The chat-completion HTTP response. *)
Inductive ChatResp :=
| ChatNotOk (error_message : option string)       (** [!response.ok] *)
| ChatOk (choices : option (list (option string))). (** [data.choices] *)

(** What the backend, the auth client, the environment and the clock answer. *)
Record Env := mkEnv {
  insert_run_resp : option string;           (** [run.id], [None] on [runError] *)
  client_email_resp : string -> Single ClientRow;
  session_resp : bool;
  send_email_resp : InvokeResp;
  client_by_resp : string -> string -> Single ClientRow;
  chat_resp : ChatResp;
  openai_key : option string;                (** [VITE_OPENAI_API_KEY] *)
  parse_date : string -> option Z;           (** [new Date(s).getTime()] *)
  now : Z;
  locale_string : Z -> string;
  delete_automation_error : option string;
}.

(* ================================================================= *)
(** ** The executor monad: reader of [Env], the log of the remote calls a
    computation makes, and thrown errors *)

Inductive Outcome (A : Type) :=
| Ret (a : A)
| Throw (e : Error).
Arguments Ret {A} a.
Arguments Throw {A} e.

Definition M (A : Type) : Type := Env -> Outcome A * list Call.

Global Instance M_ret : MRet M := fun A a env => (Ret a, []).
Global Instance M_bind : MBind M := fun A B (k : A -> M B) (m : M A) env =>
  match m env with
  | (Ret a, t1) => let '(o, t2) := k a env in (o, (t1 ++ t2)%list)
  | (Throw e, t1) => (Throw e, t1)
  end.

(** [throw new Error(msg)] *)
Definition throw {A} (msg : string) : M A := fun env => (Throw (mkError msg), []).

(** [await remote(...)]: log the call and read its answer. *)
Definition remote {A} (c : Call) (resp : Env -> A) : M A :=
  fun env => (Ret (resp env), [c]).

(** A local read of the environment (clock, [import.meta.env]). *)
Definition ask {A} (f : Env -> A) : M A := fun env => (Ret (f env), []).

(** [try { m } catch (error) { h(error) }] *)
Definition try_catch {A} (m : M A) (h : Error -> M A) : M A := fun env =>
  match m env with
  | (Ret a, t1) => (Ret a, t1)
  | (Throw e, t1) => let '(o, t2) := h e env in (o, (t1 ++ t2)%list)
  end.

(** The [catch] of every per-type handler:
    [return { success: false, message: error.message || fallback }]. *)
Definition catch_result (fallback : string) (body : M ExecResult) : M ExecResult :=
  try_catch body (fun e => mret (mkResult false (or_default (Some (err_message e)) fallback) None)).

(** The outcome of a computation and the remote calls it made, in order. *)
Definition run {A} (m : M A) (env : Env) : Outcome A * list Call := m env.

(* ================================================================= *)
(** ** String primitives *)

(** [String.prototype.toLowerCase] on the ASCII range. *)
Definition ascii_lower (c : ascii) : ascii :=
  let n := nat_of_ascii c in
  if (65 <=? n)%nat && (n <=? 90)%nat then ascii_of_nat (n + 32) else c.

Fixpoint toLowerCase (s : string) : string :=
  match s with
  | EmptyString => EmptyString
  | String c r => String (ascii_lower c) (toLowerCase r)
  end.

(** The ASCII white space removed by [String.prototype.trim]:
    tab, line feed, vertical tab, form feed, carriage return, space. *)
Definition is_ws (c : ascii) : bool :=
  let n := nat_of_ascii c in
  (n =? 32)%nat || ((9 <=? n)%nat && (n <=? 13)%nat).

Fixpoint drop_ws (l : list ascii) : list ascii :=
  match l with
  | [] => []
  | c :: r => if is_ws c then drop_ws r else l
  end.

(** [String.prototype.trim]. *)
Definition trim (s : string) : string :=
  string_of_list_ascii (rev (drop_ws (rev (drop_ws (list_ascii_of_string s))))).

(** A double quote, for messages that contain one. *)
Definition dq : string := String (ascii_of_nat 34) EmptyString.

Definition opt_eqb (o : option string) (s : string) : bool :=
  match o with Some t => String.eqb t s | None => false end.

(* ================================================================= *)
(** ** [getOpenAIApiKey] (openai-config.ts) *)

Definition getOpenAIApiKey : M string :=
  k ← ask openai_key;
  match k with
  | Some s =>
      if String.eqb s "" then
        throw "OpenAI API key not configured. Please add VITE_OPENAI_API_KEY to your .env file"
      else if String.eqb (trim s) "" then
        throw "OpenAI API key is empty. Please check your .env file"
      else mret (trim s)
  | None =>
      throw "OpenAI API key not configured. Please add VITE_OPENAI_API_KEY to your .env file"
  end.

(* ================================================================= *)
(** ** Per-type handlers shared by both versions *)

(** [automation.config || {}] *)
Definition config_of (a : Automation) : Config :=
  match config a with Some c => c | None => empty_config end.

(** The recipient lookup of the email and meeting handlers of part_000:
    [let recipientEmail = clientEmail; if (!recipientEmail && clientId) {...}]. *)
Definition resolveRecipient (clientEmail clientId : option string) : M (option string) :=
  if negb (str_truthy clientEmail) && str_truthy clientId then
    let cid := show_opt clientId in
    client ← remote (SelectClientEmail cid) (fun env => client_email_resp env cid);
    match client with
    | SErr _ msg => throw ("Client not found: " ++ or_default msg "Unknown error")
    | SOk row => mret (cr_email row)
    end
  else mret clientEmail.

(** [executeAIClientSummaryAutomation]; the two versions differ only in
    [max_tokens] (500 in part_000, 1500 in part_001).  The answers of the
    deals, interactions and prioritization queries only feed the prompt
    text, so their contents are not modelled; the prompt itself is not
    modelled either.  This is the [try] block; the handler follows. *)
Definition executeAIClientSummaryAutomation_with_body (max_tokens : Z) (automation : Automation)
    : M ExecResult :=
    let clientId := client_id (config_of automation) in
    if negb (str_truthy clientId) then throw "Client ID is required" else
    let cid := show_opt clientId in
    first ← remote (SelectClientBy "client_id" cid) (fun env => client_by_resp env "client_id" cid);
    lookup ← (match first with
              | SErr code _ =>
                  if String.eqb code "PGRST116" then
                    byId ← remote (SelectClientBy "id" cid) (fun env => client_by_resp env "id" cid);
                    mret (match byId with SOk row => SOk row | SErr _ _ => first end)
                  else mret first
              | SOk _ => mret first
              end);
    match lookup with
    | SErr _ msg => throw ("Client not found: " ++ or_default msg "Unknown error")
    | SOk client =>
        let actualClientId := or_default (or_str (cr_client_id client) (cr_id client)) cid in
        let clientName := or_default (or_str (cr_name client) (cr_client_name client)) "Unknown" in
        _ ← remote (SelectDeals actualClientId) (fun _ => tt);
        _ ← remote (SelectInteractions actualClientId) (fun _ => tt);
        _ ← remote (SelectPrioritization actualClientId) (fun _ => tt);
        openAIApiKey ← getOpenAIApiKey;
        if String.eqb openAIApiKey "" then
          throw "OpenAI API key is not configured. Please set VITE_OPENAI_API_KEY in your environment variables."
        else
        response ← remote (FetchChatCompletion max_tokens) chat_resp;
        match response with
        | ChatNotOk msg => throw (or_default msg "Failed to generate AI summary")
        | ChatOk None => throw "Cannot read properties of undefined (reading '0')"
        | ChatOk (Some choices) =>
            let summary := or_default (match choices with c :: _ => c | [] => None end)
                             "No summary generated" in
            mret (mkResult true "AI client summary generated successfully"
                    (Some (RDSummary actualClientId clientName summary)))
        end
    end.

Definition executeAIClientSummaryAutomation_with (max_tokens : Z) (automation : Automation)
    : M ExecResult :=
  catch_result "Failed to generate AI summary" (executeAIClientSummaryAutomation_with_body max_tokens automation).

(** The handlers an [executeAutomation] dispatches to. *)
Record Handlers := mkHandlers {
  h_email : Automation -> option string -> M ExecResult;
  h_meeting : Automation -> option string -> M ExecResult;
  h_summary : Automation -> M ExecResult;
}.

(* ================================================================= *)
(** ** [executeAutomation] (identical in part_000 and part_001) *)

(** The [switch (automation.action_type_type || automation.action_type)]. *)
Definition action_type_of (automation : Automation) : option string :=
  or_str (action_type_type automation) (action_type automation).

Definition dispatch (hs : Handlers) (automation : Automation) (clientEmail : option string)
    : M ExecResult :=
  let type := action_type_of automation in
  if opt_eqb type "email" then h_email hs automation clientEmail
  else if opt_eqb type "meeting" then h_meeting hs automation clientEmail
  else if opt_eqb type "ai-summary" then h_summary hs automation
  else mret (mkResult false ("Unknown automation type: " ++ show_opt type) None).

(** [!automation.is_enabled && !automation.is_active] *)
Definition is_disabled (automation : Automation) : bool :=
  negb (bool_truthy (is_enabled automation)) && negb (bool_truthy (is_active automation)).

(** [automation.action_type_type === "ai-summary" || automation.action_type === "ai-summary"] *)
Definition is_summary (automation : Automation) : bool :=
  opt_eqb (action_type_type automation) "ai-summary" || opt_eqb (action_type automation) "ai-summary".

Definition executeAutomation_with (hs : Handlers) (automation : Automation)
    (clientEmail : option string) : M ExecResult :=
  if is_disabled automation then
    mret (mkResult false "Automation is disabled" None)
  else
  let automationIdForRun := or_str (automation_id automation) (id automation) in
  runId ← remote (InsertRun automationIdForRun) insert_run_resp;
  try_catch (
    result ← dispatch hs automation clientEmail;
    _ ← (match runId with
         | Some r =>
             let resultData := if success result && is_summary automation then data result else None in
             (* an [updateError] is only logged *)
             remote (UpdateRun r (if success result then "completed" else "failed")
                       (if success result then None else Some (message result)) resultData)
                    (fun _ => tt)
         | None => mret tt
         end);
    mret result)
  (fun error =>
     _ ← (match runId with
          | Some r => remote (UpdateRun r "failed" (Some (err_message error)) None) (fun _ => tt)
          | None => mret tt
          end);
     mret (mkResult false (or_default (Some (err_message error)) "Failed to execute automation") None)).

(* ================================================================= *)
(** ** part_000: handlers that send mail through the ["send-email"] function *)

Module Part000.

(** The [try] block of [executeEmailAutomation]. *)
Definition executeEmailAutomation_body (automation : Automation) (clientEmail : option string)
    : M ExecResult :=
    let cfg := config_of automation in
    let emailMessage := or_default (email_message cfg) "" in
    let emailSubject := or_default (or_str (email_subject cfg) (name automation))
                          "Email from ClientFlowAI" in
    if String.eqb emailMessage "" then throw "Email message is required" else
    recipientEmail ← resolveRecipient clientEmail (client_id cfg);
    if negb (str_truthy recipientEmail) then
      throw "Client email is required. Please select a client or provide an email address."
    else
    let to := show_opt recipientEmail in
    (* [email_send_date] is only logged: the mail is sent now in any case *)
    session ← remote GetSession session_resp;
    if negb session then throw "User not authenticated" else
    resp ← remote (InvokeSendEmail to emailSubject) send_email_resp;
    match resp with
    | InvError msg => throw (or_default msg "Failed to send email")
    | InvData None => throw "Failed to send email"
    | InvData (Some d) =>
        if negb (sd_success d) then throw (or_default (sd_error d) "Failed to send email")
        else mret (mkResult true (or_default (sd_message d) "Email sent successfully")
                     (Some (RDEmail to emailSubject (sd_id d))))
    end.

Definition executeEmailAutomation (automation : Automation) (clientEmail : option string)
    : M ExecResult :=
  catch_result "Failed to send email" (executeEmailAutomation_body automation clientEmail).

(** The [try] block of [executeMeetingFollowUpAutomation]. *)
Definition executeMeetingFollowUpAutomation_body (automation : Automation)
    (clientEmail : option string)
    : M ExecResult :=
    let cfg := config_of automation in
    let meetingName := or_default (meeting_name cfg) "" in
    let emailContent := or_default (email_content cfg) "" in
    if String.eqb meetingName "" || String.eqb emailContent "" then
      throw "Meeting name and email content are required"
    else
    recipientEmail ← resolveRecipient clientEmail (client_id cfg);
    if negb (str_truthy recipientEmail) then
      throw "Client email is required. Please select a client or provide an email address."
    else
    let to := show_opt recipientEmail in
    session ← remote GetSession session_resp;
    if negb session then throw "User not authenticated" else
    let emailSubject := "Follow-up: " ++ meetingName in
    resp ← remote (InvokeSendEmail to emailSubject) send_email_resp;
    match resp with
    | InvError msg => throw (or_default msg "Failed to send meeting follow-up email")
    | InvData None => throw "Failed to send meeting follow-up email"
    | InvData (Some d) =>
        if negb (sd_success d) then
          throw (or_default (sd_error d) "Failed to send meeting follow-up email")
        else mret (mkResult true
                     (or_default (sd_message d)
                        ("Meeting follow-up email sent for " ++ dq ++ meetingName ++ dq))
                     (Some (RDMeeting to meetingName (sd_id d))))
    end.

Definition executeMeetingFollowUpAutomation (automation : Automation)
    (clientEmail : option string)
    : M ExecResult :=
  catch_result "Failed to send meeting follow-up email" (executeMeetingFollowUpAutomation_body automation clientEmail).

Definition executeAIClientSummaryAutomation : Automation -> M ExecResult :=
  executeAIClientSummaryAutomation_with 500.

Definition handlers : Handlers :=
  mkHandlers executeEmailAutomation executeMeetingFollowUpAutomation
    executeAIClientSummaryAutomation.

Definition executeAutomation : Automation -> option string -> M ExecResult :=
  executeAutomation_with handlers.

End Part000.

(* ================================================================= *)
(** ** part_001: handlers that only simulate sending mail *)

Module Part001.

(** The [try] block of [executeEmailAutomation]. *)
Definition executeEmailAutomation_body (automation : Automation) (clientEmail : option string)
    : M ExecResult :=
    let cfg := config_of automation in
    let emailMessage := or_default (email_message cfg) "" in
    let emailSendDate := or_default (email_send_date cfg) "" in
    if String.eqb emailMessage "" then throw "Email message is required" else
    scheduled ← (if negb (String.eqb emailSendDate "") then
                   sendDate ← ask (fun env => parse_date env emailSendDate);
                   t_now ← ask now;
                   fmt ← ask locale_string;
                   (* [sendDate > now]; an invalid date compares false *)
                   match sendDate with
                   | Some t =>
                       if (t_now <? t)%Z then
                         mret (Some (mkResult true ("Email scheduled for " ++ fmt t)
                                       (Some (RDScheduled emailSendDate))))
                       else mret None
                   | None => mret None
                   end
                 else mret None);
    match scheduled with
    | Some r => mret r
    | None =>
        (* console.log and a 1000 ms timer: no remote call *)
        mret (mkResult true "Email sent successfully" (Some (RDSimulated clientEmail emailMessage)))
    end.

Definition executeEmailAutomation (automation : Automation) (clientEmail : option string)
    : M ExecResult :=
  catch_result "Failed to send email" (executeEmailAutomation_body automation clientEmail).

(** The [try] block of [executeMeetingFollowUpAutomation]. *)
Definition executeMeetingFollowUpAutomation_body (automation : Automation)
    (clientEmail : option string)
    : M ExecResult :=
    let cfg := config_of automation in
    let meetingName := or_default (meeting_name cfg) "" in
    let emailContent := or_default (email_content cfg) "" in
    if String.eqb meetingName "" || String.eqb emailContent "" then
      throw "Meeting name and email content are required"
    else
    mret (mkResult true ("Meeting follow-up email sent for " ++ dq ++ meetingName ++ dq)
            (Some (RDSimulated clientEmail emailContent))).

Definition executeMeetingFollowUpAutomation (automation : Automation)
    (clientEmail : option string)
    : M ExecResult :=
  catch_result "Failed to send meeting follow-up email" (executeMeetingFollowUpAutomation_body automation clientEmail).

Definition executeAIClientSummaryAutomation : Automation -> M ExecResult :=
  executeAIClientSummaryAutomation_with 1500.

Definition handlers : Handlers :=
  mkHandlers executeEmailAutomation executeMeetingFollowUpAutomation
    executeAIClientSummaryAutomation.

Definition executeAutomation : Automation -> option string -> M ExecResult :=
  executeAutomation_with handlers.

End Part001.

(* ================================================================= *)
(** ** [useDeleteAutomation] (useAutomations.tsx): the mutation function *)

Definition useDeleteAutomation_mutationFn (automationId : string) : M unit :=
  (* a [runsError] is only logged *)
  _ ← remote (DeleteRuns automationId) (fun _ => tt);
  error ← remote (DeleteAutomation automationId) delete_automation_error;
  match error with
  | Some msg => throw msg
  | None => mret tt
  end.

(* ================================================================= *)
(** ** Sample inputs *)

Definition sample_client : ClientRow :=
  mkClientRow (Some "c-1") (Some "7") (Some "Ada Lovelace") None (Some "ada@example.com").

(** A backend where everything succeeds. *)
Definition env_ok : Env := {|
  insert_run_resp := Some "run-1";
  client_email_resp := fun _ => SOk sample_client;
  session_resp := true;
  send_email_resp := InvData (Some (mkSendData true None None (Some "mail-1")));
  client_by_resp := fun _ _ => SOk sample_client;
  chat_resp := ChatOk (Some [Some "A loyal client."]);
  openai_key := Some "sk-test";
  parse_date := fun _ => None;
  now := 0;
  locale_string := fun _ => "";
  delete_automation_error := None;
|}.

(** The same backend, but the [automation_runs] insert fails. *)
Definition env_no_run : Env := {|
  insert_run_resp := None;
  client_email_resp := fun _ => SOk sample_client;
  session_resp := true;
  send_email_resp := InvData (Some (mkSendData true None None (Some "mail-1")));
  client_by_resp := fun _ _ => SOk sample_client;
  chat_resp := ChatOk (Some [Some "A loyal client."]);
  openai_key := Some "sk-test";
  parse_date := fun _ => None;
  now := 0;
  locale_string := fun _ => "";
  delete_automation_error := None;
|}.

Definition email_config (msg : string) : Config :=
  mkConfig (Some msg) None (Some "Hello") (Some "c-1") None None.

(** An enabled email automation. *)
Definition email_automation (msg : string) : Automation :=
  mkAutomation (Some "a-1") None (Some "Welcome") (Some "email") None (Some true) None
    (Some (email_config msg)).

(** An enabled AI-summary automation. *)
Definition summary_automation : Automation :=
  mkAutomation (Some "a-2") None (Some "Summary") (Some "ai-summary") None (Some true) None
    (Some (mkConfig None None None (Some "c-1") None None)).

(* ================================================================= *)
(** ** Observations on call logs *)

(** Calls on the [automation_runs] row of an execution. *)
Definition touches_runs (c : Call) : bool :=
  match c with
  | InsertRun _ | UpdateRun _ _ _ _ => true
  | _ => false
  end.

(** The [automation_status] a call writes. *)
Definition run_status (c : Call) : option string :=
  match c with
  | InsertRun _ => Some "running"
  | UpdateRun _ s _ _ => Some s
  | _ => None
  end.

Definition run_statuses (l : list Call) : list string := omap run_status l.

Definition count_api (l : list Call) : nat := List.length (List.filter is_api_call l).

Definition count_writes (l : list Call) : nat := List.length (List.filter is_write l).

(** The two versions of the executor. *)
Definition versions : list Handlers := [Part000.handlers; Part001.handlers].

(** The update [executeAutomation] makes after the handler returned [res]. *)
Definition final_update (env : Env) (a : Automation) (res : ExecResult) : list Call :=
  match insert_run_resp env with
  | Some r =>
      [UpdateRun r (if success res then "completed" else "failed")
         (if success res then None else Some (message res))
         (if success res && is_summary a then data res else None)]
  | None => []
  end.

(** A handler that returns a result (never throws), writes nothing (in
    particular makes no call on [automation_runs]) and makes at most one API
    call. *)
Definition well_behaved (m : M ExecResult) : Prop :=
  forall env, exists res,
    fst (m env) = Ret res /\
    Forall (fun c => is_write c = false) (snd (m env)) /\
    (count_api (snd (m env)) <= 1)%nat.

(** A handler wraps its [try] block [body] in a [catch] that turns every
    thrown error into [{ success: false, message: error.message || fallback }]. *)
Definition catches_all (fallback : string) (body handler : M ExecResult) : Prop :=
  forall env, exists res,
    fst (handler env) = Ret res /\
    (success res = false <->
     exists e, fst (body env) = Throw e /\
               res = mkResult false (or_default (Some (err_message e)) fallback) None).

(** A disabled automation with a valid email configuration. *)
Definition disabled_automation : Automation :=
  mkAutomation (Some "a-3") None (Some "Paused") (Some "email") None (Some false) None
    (Some (email_config "hi")).

(* ================================================================= *)
(** ** [useClients] (useClients.tsx): the mapping of the fetched rows *)

(** [row.k]: a missing column reads as [undefined]. *)
Definition get (row : gmap string jsval) (k : string) : jsval :=
  match row !! k with Some v => v | None => JUndef end.

(** [({ ...client, id: client.client_id || client.id,
       source: client.source || client.lead_source || null,
       status: client.priority || client.status || null })] *)
Definition mapClient (client : gmap string jsval) : gmap string jsval :=
  <["status" := js_or (js_or (get client "priority") (get client "status")) JNull]>
  (<["source" := js_or (js_or (get client "source") (get client "lead_source")) JNull]>
  (<["id" := js_or (get client "client_id") (get client "id")]> client)).

(** [{ data, error }] of a list query. *)
Inductive ListResp (A : Type) :=
| LData (d : option (list A))
| LError (msg : string).
Arguments LData {A} d.
Arguments LError {A} msg.

(** The [queryFn] of [useClients], given the signed-in user's id and the
    answer of [clients.select("*").eq("user_id", ..).order(..)]. *)
Definition useClients_queryFn (userId : option string) (resp : ListResp (gmap string jsval))
    : Outcome (list (gmap string jsval)) :=
  if negb (str_truthy userId) then Ret [] else
  match resp with
  | LError msg => Throw (mkError msg)
  | LData d => Ret (map mapClient (match d with Some l => l | None => [] end))
  end.

(* ================================================================= *)
(** ** openai-config.ts: the analysis of an uploaded document *)

(** [normalizePriority] *)
Definition normalizePriority (priority : string) : string :=
  let normalized := trim (toLowerCase priority) in
  if String.eqb normalized "low" || String.eqb normalized "medium" || String.eqb normalized "high"
  then normalized else "medium".

(** [normalizeSentiment] *)
Definition normalizeSentiment (sentiment : string) : string :=
  let normalized := trim (toLowerCase sentiment) in
  if String.eqb normalized "low" || String.eqb normalized "mid"
     || String.eqb normalized "medium" || String.eqb normalized "high"
  then (if String.eqb normalized "medium" then "mid" else normalized)
  else "mid".

(** [PDFAnalysisResult] *)
Record PDFAnalysisResult := mkAnalysis {
  pdf_priority : string;
  keywordsCount : jsval;
  pdf_sentiment : string;
  reasoning : jsval;
}.

Definition lift {A} (o : Outcome A) : M A := fun _ => (o, []).

Fixpoint assoc (k : string) (fs : list (string * jsval)) : jsval :=
  match fs with
  | [] => JUndef
  | (k', v) :: r => if String.eqb k k' then v else assoc k r
  end.

(** Property access [v.k]. *)
Definition js_get (v : jsval) (k : string) : Outcome jsval :=
  match v with
  | JUndef => Throw (mkError ("Cannot read properties of undefined (reading '" ++ k ++ "')"))
  | JNull => Throw (mkError ("Cannot read properties of null (reading '" ++ k ++ "')"))
  | JObj fs => Ret (assoc k fs)
  | _ => Ret JUndef
  end.

(** [normalizePriority(v)] / [normalizeSentiment(v)] on a parsed value:
    [v.toLowerCase()] throws unless [v] is a string. *)
Definition on_string (f : string -> string) (v : jsval) : Outcome string :=
  match v with
  | JStr s => Ret (f s)
  | JUndef => Throw (mkError "Cannot read properties of undefined (reading 'toLowerCase')")
  | JNull => Throw (mkError "Cannot read properties of null (reading 'toLowerCase')")
  | _ => Throw (mkError "toLowerCase is not a function")
  end.

(** [result.includes(",")] *)
Fixpoint has_comma (s : string) : bool :=
  match s with
  | EmptyString => false
  | String c r => Ascii.eqb c ","%char || has_comma r
  end.

(** [result.split(",")] *)
Fixpoint split_comma (s : string) : list string :=
  match s with
  | EmptyString => [""]
  | String c r =>
      let parts := split_comma r in
      if Ascii.eqb c ","%char then "" :: parts
      else match parts with
           | p :: ps => String c p :: ps
           | [] => [String c ""]
           end
  end.

(** The [onload] handler of [fileToBase64]: the data URL [reader.result]
    without its prefix, [result.includes(",") ? result.split(",")[1] : result]. *)
Definition fileToBase64_onload (result : string) : string :=
  if has_comma result then show_opt (nth_error (split_comma result) 1) else result.

(** [fileToBase64(file)], given the outcome of the [FileReader]: its
    [result] when [onload] fires, or the value [onerror] rejects with (the
    [ProgressEvent], passed on as is). *)
Definition fileToBase64 (reader : Outcome string) : Outcome string :=
  match reader with
  | Ret result => Ret (fileToBase64_onload result)
  | Throw e => Throw e
  end.

Section Analysis.

(** [JSON.parse]: any parser of the model's answer. *)
Variable JSON_parse : string -> Outcome jsval.

(** The [try] block and [catch] shared by [analyzeImageWithOpenAI]
    ([kind] = "image") and [analyzePDFWithOpenAI] ([kind] = "PDF"); the two
    differ otherwise only in the prompt and the data URL, not modelled. *)
Definition analyzeDocument (kind : string) : M PDFAnalysisResult :=
  try_catch (
    response ← remote (FetchChatCompletion 500) chat_resp;
    match response with
    | ChatNotOk msg => throw (or_default msg ("Failed to analyze " ++ kind))
    | ChatOk None => throw "Cannot read properties of undefined (reading '0')"
    | ChatOk (Some choices) =>
        let content := match choices with c :: _ => c | [] => None end in
        if negb (str_truthy content) then throw "No response from OpenAI" else
        analysis ← lift (JSON_parse (show_opt content));
        p ← lift (js_get analysis "priority");
        priority ← lift (on_string normalizePriority p);
        sv ← lift (js_get analysis "sentiment");
        sentiment ← lift (on_string normalizeSentiment sv);
        kc ← lift (js_get analysis "keywordsCount");
        rs ← lift (js_get analysis "reasoning");
        mret (mkAnalysis priority (js_or kc (JNum 0)) sentiment (js_or rs (JStr "")))
    end)
  (fun error => throw ("Failed to analyze " ++ kind ++ ": " ++ err_message error)).

(** [const openAIApiKey = apiKey || getOpenAIApiKey();
     const base64 = await fileToBase64(file);], both before the [try];
    [reader] is what the [FileReader] gives for [file] (reading it is
    local: no remote call). *)
Definition analyzeImageWithOpenAI (reader : Outcome string) (apiKey : option string)
    : M PDFAnalysisResult :=
  _ ← (if str_truthy apiKey then mret (show_opt apiKey) else getOpenAIApiKey);
  _ ← lift (fileToBase64 reader);
  analyzeDocument "image".

Definition analyzePDFWithOpenAI (reader : Outcome string) (apiKey : option string)
    : M PDFAnalysisResult :=
  _ ← (if str_truthy apiKey then mret (show_opt apiKey) else getOpenAIApiKey);
  _ ← lift (fileToBase64 reader);
  analyzeDocument "PDF".

End Analysis.

(** What every returned analysis satisfies. *)
Definition normalized_result (r : PDFAnalysisResult) : Prop :=
  In (pdf_priority r) ["low"; "medium"; "high"] /\
  In (pdf_sentiment r) ["low"; "mid"; "high"] /\
  exists p sv, pdf_priority r = normalizePriority p /\ pdf_sentiment r = normalizeSentiment sv.

(* ================================================================= *)
(** ** The priority list of the dashboard ([PriorityClients]) *)

(** A client as [useClients] delivers it: [id] (a string after the
    mapping), [status] (the priority column or the status column) and
    [name]. *)
Record DClient := mkDClient {
  c_id : string;
  c_status : option string;
  c_name : string
}.

(** A deal as [useDeals] delivers it ([select("*, clients(name)")]):
    [client_id], and the [id] of the embedded [clients] object, which the
    query never selects, so [None] ([undefined]) in practice. *)
Record Deal := mkDeal {
  d_client_id : option string;
  d_clients_id : option string
}.

(** [String(deal.client_id || deal.clients?.id)]. *)
Definition dealClientId (d : Deal) : string :=
  show_opt (or_str (d_client_id d) (d_clients_id d)).

(** The element built by the [map]: the client, its number of deals and
    [priority: client.status || "medium"]. *)
Record PItem := mkPItem {
  p_client : DClient;
  p_deals : Z;
  p_priority : string
}.

Definition toItem (deals : list Deal) (client : DClient) : PItem :=
  {| p_client := client;
     p_deals := Z.of_nat (List.length
                  (List.filter (fun d => String.eqb (dealClientId d) (c_id client)) deals));
     p_priority := or_default (c_status client) "medium" |}.

(** The names an object literal inherits from [Object.prototype]: reading
    one of them on [priorityOrder] yields a function (or, for
    [__proto__], the prototype object), not [undefined]. *)
Definition object_prototype_members : list string :=
  ["constructor"; "__proto__"; "hasOwnProperty"; "isPrototypeOf";
   "propertyIsEnumerable"; "toLocaleString"; "toString"; "valueOf";
   "__defineGetter__"; "__defineSetter__"; "__lookupGetter__"; "__lookupSetter__"].

(** A value read from [priorityOrder]: a number, [undefined], or the
    inherited member of the given name (an object, hence truthy). *)
Inductive PropVal :=
| PNum (z : Z)
| PUndef
| PInherited (member : string).

(** [priorityOrder[p]] for [const priorityOrder = { high: 3, medium: 2, low: 1 }]. *)
Definition priorityOrder_get (p : string) : PropVal :=
  if String.eqb p "high" then PNum 3
  else if String.eqb p "medium" then PNum 2
  else if String.eqb p "low" then PNum 1
  else if existsb (String.eqb p) object_prototype_members then PInherited p
  else PUndef.

(** [priorityOrder[p] || 2]. *)
Definition priorityOf (p : string) : PropVal :=
  match priorityOrder_get p with
  | PNum z => if Z.eqb z 0 then PNum 2 else PNum z
  | PUndef => PNum 2
  | PInherited m => PInherited m
  end.

(** A number as the comparator returns it; [NaN] is what a subtraction
    involving a function or an object gives. *)
Inductive JNumber :=
| NNum (z : Z)
| NNaN.

(** [bPriority !== aPriority]: distinct inherited members are distinct
    objects. *)
Definition strict_neq (b a : PropVal) : bool :=
  match b, a with
  | PNum x, PNum y => negb (Z.eqb x y)
  | PUndef, PUndef => false
  | PInherited m, PInherited n => negb (String.eqb m n)
  | _, _ => true
  end.

(** [bPriority - aPriority]. *)
Definition js_sub (b a : PropVal) : JNumber :=
  match b, a with
  | PNum x, PNum y => NNum (x - y)
  | _, _ => NNaN
  end.

(** The comparator passed to [sort]. *)
Definition compare (a b : PItem) : JNumber :=
  let aPriority := priorityOf (p_priority a) in
  let bPriority := priorityOf (p_priority b) in
  if strict_neq bPriority aPriority then js_sub bPriority aPriority
  else NNum (p_deals b - p_deals a).

(** [Array.prototype.sort] reads a result [v] as "[a] after [b]" when
    [v > 0]; [NaN] counts as [+0]. *)
Definition cmp_gt0 (v : JNumber) : bool :=
  match v with NNum z => Z.ltb 0 z | NNaN => false end.

(** A stable sort (the language requires [sort] to be stable): each
    element is inserted before the first element that compares after it.
    On a consistent comparator every stable sort gives this result. *)
Fixpoint sort_insert (x : PItem) (l : list PItem) : list PItem :=
  match l with
  | [] => [x]
  | y :: l' => if cmp_gt0 (compare y x) then x :: l else y :: sort_insert x l'
  end.

Definition js_sort (l : list PItem) : list PItem :=
  fold_left (fun acc x => sort_insert x acc) l [].

(** The [useMemo] body: map, sort, [slice(0, 5)]. *)
Definition priorityClients (clients : list DClient) (deals : list Deal) : list PItem :=
  firstn 5 (js_sort (map (toItem deals) clients)).

(** The rank the description of the list gives: high 3, medium 2, low 1,
    anything else 2. *)
Definition claim_rank (p : string) : Z :=
  if String.eqb p "high" then 3
  else if String.eqb p "medium" then 2
  else if String.eqb p "low" then 1
  else 2.

(** [x] may come before [y]: a higher rank, or the same rank and at least
    as many deals. *)
Definition claim_before (x y : PItem) : Prop :=
  (claim_rank (p_priority y) < claim_rank (p_priority x) \/
   (claim_rank (p_priority y) = claim_rank (p_priority x) /\ p_deals y <= p_deals x))%Z.

Fixpoint claim_ordered (l : list PItem) : bool :=
  match l with
  | x :: ((y :: _) as l') =>
      ((claim_rank (p_priority y) <? claim_rank (p_priority x))%Z ||
       ((claim_rank (p_priority y) =? claim_rank (p_priority x))%Z &&
        (p_deals y <=? p_deals x)%Z)) && claim_ordered l'
  | _ => true
  end.

(** A status that is the name of an inherited member. *)
Definition is_prototype_member (p : string) : bool :=
  existsb (String.eqb p) object_prototype_members.

(** A client with a low status, and one whose status is ["toString"]. *)
Definition client_low : DClient := mkDClient "1" (Some "low") "Low Client".
Definition client_proto : DClient := mkDClient "2" (Some "toString") "Proto Client".

(** The backend of [env_ok] without a session. *)
Definition env_no_session : Env := {|
  insert_run_resp := Some "run-1";
  client_email_resp := fun _ => SOk sample_client;
  session_resp := false;
  send_email_resp := InvData (Some (mkSendData true None None (Some "mail-1")));
  client_by_resp := fun _ _ => SOk sample_client;
  chat_resp := ChatOk (Some [Some "A loyal client."]);
  openai_key := Some "sk-test";
  parse_date := fun _ => None;
  now := 0;
  locale_string := fun _ => "";
  delete_automation_error := None;
|}.

(* ================================================================= *)
(** ** More of openai-config.ts *)

(** [isOpenAIConfigured]: [!!apiKey && apiKey.trim() !== ""]; reading
    [import.meta.env] does not throw, so its [catch] is never taken. *)
Definition isOpenAIConfigured : M bool :=
  k ← ask openai_key;
  mret (match k with
        | Some s => negb (String.eqb s "") && negb (String.eqb (trim s) "")
        | None => false
        end).

(** [analyzePDFTextWithOpenAI(text, apiKey)]: the key is read before the
    [try]; [text.substring(0, 4000)] only feeds the prompt, which is not
    modelled; the [try] block and [catch] are those of [analyzeDocument]
    with the kind "PDF text" (default error "Failed to analyze PDF text",
    rethrown as "Failed to analyze PDF text: <message>"). *)
Definition analyzePDFTextWithOpenAI (JSON_parse : string -> Outcome jsval)
    (text : string) (apiKey : option string) : M PDFAnalysisResult :=
  _ ← (if str_truthy apiKey then mret (show_opt apiKey) else getOpenAIApiKey);
  analyzeDocument JSON_parse "PDF text".

(** The two errors [getOpenAIApiKey] throws. *)
Definition key_errors : list string :=
  ["OpenAI API key not configured. Please add VITE_OPENAI_API_KEY to your .env file";
   "OpenAI API key is empty. Please check your .env file"].

(* ================================================================= *)
(** ** useAutomations.tsx: the query and the create and update mutations *)

(** [v !== undefined] *)
Definition defined (v : jsval) : bool :=
  match v with JUndef => false | _ => true end.

(** [Array.prototype.map] with a callback that may throw: the first error
    ends the map. *)
Fixpoint map_outcome {A B} (f : A -> Outcome B) (l : list A) : Outcome (list B) :=
  match l with
  | [] => Ret []
  | x :: r =>
      match f x with
      | Throw e => Throw e
      | Ret y => match map_outcome f r with Throw e => Throw e | Ret ys => Ret (y :: ys) end
      end
  end.

(** The mapping of a fetched automation row:
    [{ ...automation, id: automation.automation_id,
       action_type: automation.action_type_type,
       is_active: automation.is_enabled,
       config: typeof automation.config === "string"
         ? JSON.parse(automation.config || "{}") : (automation.config || {}) }]. *)
Definition mapAutomation (JSON_parse : string -> Outcome jsval) (automation : gmap string jsval)
    : Outcome (gmap string jsval) :=
  let config := match get automation "config" with
                | JStr s => JSON_parse (if String.eqb s "" then "{}" else s)
                | c => Ret (js_or c (JObj []))
                end in
  match config with
  | Throw e => Throw e
  | Ret cfg =>
      Ret (<["config" := cfg]>
           (<["is_active" := get automation "is_enabled"]>
            (<["action_type" := get automation "action_type_type"]>
             (<["id" := get automation "automation_id"]> automation))))
  end.

(** The [queryFn] of [useAutomations], given the answer of
    [automations.select("*").order("created_at", ...)]. *)
Definition useAutomations_queryFn (JSON_parse : string -> Outcome jsval)
    (resp : ListResp (gmap string jsval)) : Outcome (list (gmap string jsval)) :=
  match resp with
  | LError msg => Throw (mkError msg)
  | LData d => map_outcome (mapAutomation JSON_parse) (match d with Some l => l | None => [] end)
  end.

(** The row [useCreateAutomation] inserts ([dbAutomation]); [createdIso]
    and [updatedIso] are the two readings of [new Date().toISOString()]. *)
Definition dbAutomation (automation : gmap string jsval) (createdIso updatedIso : string)
    : gmap string jsval :=
  <["updated_at" := JStr updatedIso]>
  (<["created_at" := JStr createdIso]>
  (<["user_id" := JNull]>
  (<["config" := js_or (get automation "config") (JObj [])]>
  (<["is_enabled" := if defined (get automation "is_enabled") then get automation "is_enabled"
                     else if defined (get automation "is_active") then get automation "is_active"
                     else JBool true]>
  (<["action_type_type" := js_or (get automation "action_type_type") (get automation "action_type")]>
  (<["trigger_type" := js_or (get automation "trigger_type") JNull]>
  (<["description" := get automation "description"]>
  (<["name" := get automation "name"]> ∅)))))))).

(** The [mutationFn] of [useCreateAutomation] up to its request: the
    error thrown before any call, or the row it inserts. *)
Definition useCreateAutomation_request (userId : option string) (automation : gmap string jsval)
    (createdIso updatedIso : string) : Outcome (gmap string jsval) :=
  if negb (str_truthy userId) then
    Throw (mkError "User must be authenticated to create an automation")
  else Ret (dbAutomation automation createdIso updatedIso).

(** The [mutationFn] of [useUpdateAutomation] up to its request: the error
    thrown before any call, or the id it filters on
    ([.eq("automation_id", targetId)]) and the update body [dbUpdates]. *)
Definition useUpdateAutomation_request (input : gmap string jsval) (nowIso : string)
    : Outcome (jsval * gmap string jsval) :=
  let targetId := js_or (get input "automation_id") (get input "id") in
  if negb (truthy targetId) then Throw (mkError "Automation ID is required") else
  let updates := delete "automation_id" (delete "id" input) in
  let d0 : gmap string jsval := {[ "updated_at" := JStr nowIso ]} in
  let d1 := if defined (get updates "name") then <["name" := get updates "name"]> d0 else d0 in
  let d2 := if defined (get updates "description")
            then <["description" := get updates "description"]> d1 else d1 in
  let d3 := if defined (get updates "action_type_type")
            then <["action_type_type" := get updates "action_type_type"]> d2
            else if defined (get updates "action_type")
            then <["action_type_type" := get updates "action_type"]> d2 else d2 in
  let d4 := if defined (get updates "is_enabled")
            then <["is_enabled" := get updates "is_enabled"]> d3
            else if defined (get updates "is_active")
            then <["is_enabled" := get updates "is_active"]> d3 else d3 in
  Ret (targetId, d4).

(** [toggleAutomation(id, currentValue)] of the Automations page:
    [updateAutomation.mutate({ id, is_active: !currentValue })]. *)
Definition toggleAutomation (id : string) (currentValue : bool) (nowIso : string)
    : Outcome (jsval * gmap string jsval) :=
  useUpdateAutomation_request (<["is_active" := JBool (negb currentValue)]> {[ "id" := JStr id ]}) nowIso.

(* ================================================================= *)
(** ** useAutomationRuns.tsx *)

(** The [automation_runs] queries: the automation id, whether only
    completed runs are selected, and the [limit]. *)
Inductive RunsQuery :=
| QRuns (automation_id : string) (completed_only : bool) (limit : Z).

(** [{ data, error }] of a runs query. *)
Inductive RunsResp :=
| RunsError (code : string) (message : string)
| RunsData (data : jsval).

(** [obj[k] = v] on an object that has the key [k]. *)
Fixpoint assoc_set (k : string) (v : jsval) (fs : list (string * jsval)) : list (string * jsval) :=
  match fs with
  | [] => []
  | (k', v') :: r => if String.eqb k k' then (k', v) :: r else (k', v') :: assoc_set k v r
  end.

(** What the [queryFn] of [useLatestAutomationRun] does with the answer. *)
Definition latestRun_of (JSON_parse : string -> Outcome jsval) (resp : RunsResp) : Outcome jsval :=
  match resp with
  | RunsError code msg => if String.eqb code "PGRST116" then Ret JNull else Throw (mkError msg)
  | RunsData data =>
      let runData := match data with
                     | JArr l => match l with v :: _ => v | [] => JUndef end
                     | v => v
                     end in
      if negb (truthy runData) then Ret JNull else
      match runData with
      | JObj fs =>
          match assoc "result_data" fs with
          | JStr s =>
              if String.eqb s "" then Ret runData else
              match JSON_parse s with
              | Ret v => Ret (JObj (assoc_set "result_data" v fs))
              | Throw _ => Ret runData   (* the parse error is only logged *)
              end
          | _ => Ret runData
          end
      | _ => Ret runData
      end
  end.

(** The [queryFn] of [useLatestAutomationRun]: the query it makes, if any,
    and its result. *)
Definition useLatestAutomationRun_queryFn (JSON_parse : string -> Outcome jsval)
    (automationId userId : option string) (resp : RunsResp) : list RunsQuery * Outcome jsval :=
  if negb (str_truthy automationId) || negb (str_truthy userId) then ([], Ret JNull) else
  ([QRuns (show_opt automationId) true 1], latestRun_of JSON_parse resp).

(** The [queryFn] of [useAutomationRuns]. *)
Definition useAutomationRuns_queryFn (automationId userId : option string)
    (resp : ListResp jsval) : list RunsQuery * Outcome (list jsval) :=
  if negb (str_truthy automationId) || negb (str_truthy userId) then ([], Ret []) else
  ([QRuns (show_opt automationId) false 10],
   match resp with
   | LError msg => Throw (mkError msg)
   | LData d => Ret (match d with Some l => l | None => [] end)
   end).

(* ================================================================= *)
(** ** useDeals.tsx *)

(** The writes of the deal hooks: [insert(row)], [update(body).eq("id",
    id).eq("user_id", user)] and [delete().eq("id", id).eq("user_id",
    user)]. *)
Inductive DealReq :=
| DealInsert (row : gmap string jsval)
| DealUpdate (id : jsval) (user_id : string) (body : gmap string jsval)
| DealDelete (id : string) (user_id : string).

(** The user a deal write belongs to: the inserted [user_id], or the
    [user_id] the update or delete filters on. *)
Definition dealReq_user (r : DealReq) : jsval :=
  match r with
  | DealInsert row => get row "user_id"
  | DealUpdate _ u _ | DealDelete _ u => JStr u
  end.

(** [useCreateDeal]: [insert({ ...deal, user_id: user.id })]. *)
Definition useCreateDeal_request (userId : option string) (deal : gmap string jsval)
    : Outcome DealReq :=
  if negb (str_truthy userId) then Throw (mkError "User not authenticated") else
  Ret (DealInsert (<["user_id" := JStr (show_opt userId)]> deal)).

(** [useUpdateDeal]: [({ id, ...updates }) => update(updates).eq("id",
    id).eq("user_id", user.id)]. *)
Definition useUpdateDeal_request (userId : option string) (input : gmap string jsval)
    : Outcome DealReq :=
  if negb (str_truthy userId) then Throw (mkError "User not authenticated") else
  Ret (DealUpdate (get input "id") (show_opt userId) (delete "id" input)).

(** [useDeleteDeal]. *)
Definition useDeleteDeal_request (userId : option string) (id : string) : Outcome DealReq :=
  if negb (str_truthy userId) then Throw (mkError "User not authenticated") else
  Ret (DealDelete id (show_opt userId)).

(* ================================================================= *)
(** ** useClients.tsx: the writes *)

(** [useCreateClient]: [insert({ ...client, user_id: user.id, created_at,
    updated_at, last_contact })], each timestamp its own reading of
    [new Date().toISOString()]. *)
Definition useCreateClient_request (userId : option string) (client : gmap string jsval)
    (t1 t2 t3 : string) : Outcome (gmap string jsval) :=
  if negb (str_truthy userId) then
    Throw (mkError "User must be authenticated to create a client") else
  Ret (<["last_contact" := JStr t3]>
       (<["updated_at" := JStr t2]>
        (<["created_at" := JStr t1]>
         (<["user_id" := JStr (show_opt userId)]> client)))).

(** [useUpdateClient]: [const { id, ...updates } = input;
    update({ ...updates, updated_at }).eq("client_id", id)]; the id it
    filters on and the body. *)
Definition useUpdateClient_request (input : gmap string jsval) (nowIso : string)
    : jsval * gmap string jsval :=
  (get input "id", <["updated_at" := JStr nowIso]> (delete "id" input)).

(* ================================================================= *)
(** ** The Pipeline page and the dashboard statistics *)

(** A deal row as the pages use it: [id], [stage], [created_at] and the
    client fields. *)
Record DealRow := mkDealRow {
  dr_id : string;
  dr_stage : string;
  dr_created_at : string;
  dr_deal : Deal
}.

(** The ids of [stageConfig]. *)
Definition stageConfig : list string :=
  ["New"; "Contacted"; "Follow-up"; "Negotiating"; "Closed"].

(** [stages]: one column per entry of [stageConfig], with
    [deals.filter((deal) => deal.stage === stage.id)]. *)
Definition pipeline_stages (deals : list DealRow) : list (string * list DealRow) :=
  map (fun sid => (sid, List.filter (fun d => String.eqb (dr_stage d) sid) deals)) stageConfig.

Definition column_total (cols : list (string * list DealRow)) : nat :=
  fold_right (fun c acc => (List.length (snd c) + acc)%nat) 0%nat cols.

(** [handleDrop(e, targetStageId)] with [dealId] read from the drag data:
    the argument of [updateDeal.mutateAsync], if it is called. *)
Definition handleDrop (deals : list DealRow) (dealId targetStageId : string)
    : option (gmap string jsval) :=
  if String.eqb dealId "" then None else
  match List.find (fun d => String.eqb (dr_id d) dealId) deals with
  | None => None
  | Some deal =>
      if String.eqb (dr_stage deal) targetStageId then None
      else Some (<["stage" := JStr targetStageId]> {[ "id" := JStr dealId ]})
  end.

(** The dashboard's [followUpDeals]. *)
Definition followUpDeals (deals : list DealRow) : list DealRow :=
  List.filter (fun d => String.eqb (dr_stage d) "Follow-up") deals.

(** [followUpDeals.map((deal) => deal.client_id || deal.clients?.id)
      .filter((id) => id !== null && id !== undefined)]. *)
Definition followUpClientIds (deals : list DealRow) : list string :=
  omap (fun d => or_str (d_client_id (dr_deal d)) (d_clients_id (dr_deal d))) (followUpDeals deals).

(** [new Set(followUpClientIds).size]. *)
Definition clientsInFollowUp (deals : list DealRow) : nat :=
  List.length (remove_dups (followUpClientIds deals)).

(** The dashboard's [closedThisMonth]: [parseDate] is [new Date(s)] as a
    time value ([None] for an invalid date, whose comparisons are all
    false) and [firstDayOfMonth] the time value of the first day of the
    current month. *)
Definition closedThisMonth (parseDate : string -> option Z) (firstDayOfMonth : Z)
    (deals : list DealRow) : list DealRow :=
  List.filter (fun deal =>
    if negb (String.eqb (dr_stage deal) "Closed") && negb (String.eqb (dr_stage deal) "closed")
       && negb (String.eqb (dr_stage deal) "won") then false
    else match parseDate (dr_created_at deal) with
         | Some t => Z.leb firstDayOfMonth t
         | None => false
         end) deals.

(* ================================================================= *)
(** ** The AI summary card of the Automations page *)

(** Optional chaining [v?.k]: [undefined] on [null] or [undefined], and on
    any value that is not an object (none of the keys read here is a
    property of a string, number or array). *)
Definition opt_get (v : jsval) (k : string) : jsval :=
  match v with JObj fs => assoc k fs | _ => JUndef end.

(** [hasSummary] of [AISummaryCard] for its [latestRun]:
    [summary && typeof summary === 'string' && summary.trim().length > 0]
    with [summary = latestRun?.result_data?.summary]. *)
Definition card_hasSummary (latestRun : jsval) : bool :=
  let summary := opt_get (opt_get latestRun "result_data") "summary" in
  truthy summary &&
  match summary with JStr s => Nat.ltb 0 (String.length (trim s)) | _ => false end.

(** [clientName = latestRun?.result_data?.clientName || client?.name ||
    "Unknown Client"], with [clientFound] the [client?.name] of the client
    list. *)
Definition card_clientName (latestRun clientFound : jsval) : jsval :=
  js_or (js_or (opt_get (opt_get latestRun "result_data") "clientName") clientFound)
        (JStr "Unknown Client").

(* ================================================================= *)
(** ** The search of the Clients page *)







(** A [JSON.parse] that accepts only ["{}"], and automation rows, for the
    instances below. *)
Definition parse_braces (s : string) : Outcome jsval :=
  if String.eqb s "{}" then Ret (JObj []) else Throw (mkError "Unexpected token").

Definition sample_automation_rows : list (gmap string jsval) :=
  [ <["automation_id" := JStr "a1"]> (<["config" := JStr ""]> ∅);
    <["automation_id" := JStr "a2"]> (<["config" := JNull]> ∅) ].

Definition sample_bad_config_row : gmap string jsval :=
  <["automation_id" := JStr "a3"]> (<["config" := JStr "not json"]> ∅).

(* ================================================================= *)
(** * Theorems *)

Ltac unfold_m :=
  unfold run, catch_result, try_catch, mbind, mret, M_bind, M_ret, throw, remote, ask in *.

Ltac wb_close :=
  eexists; split; [reflexivity | split; [repeat constructor | unfold count_api; simpl; lia]].

Lemma email000_well_behaved a ce : well_behaved (Part000.executeEmailAutomation a ce).
Proof.
  intros env.
  unfold Part000.executeEmailAutomation, Part000.executeEmailAutomation_body, resolveRecipient.
  unfold_m.
  repeat (case_match; simpl in *; try congruence); simplify_eq; simpl; try wb_close.
Qed.

Ltac wb_solve :=
  intros env; unfold_m;
  repeat (case_match; simpl in *; try congruence); simplify_eq; simpl; try wb_close.

Lemma meeting000_well_behaved a ce : well_behaved (Part000.executeMeetingFollowUpAutomation a ce).
Proof.
  unfold Part000.executeMeetingFollowUpAutomation, Part000.executeMeetingFollowUpAutomation_body,
    resolveRecipient.
  wb_solve.
Qed.

Lemma summary_well_behaved n a : well_behaved (executeAIClientSummaryAutomation_with n a).
Proof.
  unfold executeAIClientSummaryAutomation_with, executeAIClientSummaryAutomation_with_body,
    getOpenAIApiKey.
  wb_solve.
Qed.

Lemma email001_well_behaved a ce : well_behaved (Part001.executeEmailAutomation a ce).
Proof.
  unfold Part001.executeEmailAutomation, Part001.executeEmailAutomation_body.
  wb_solve.
Qed.

Lemma meeting001_well_behaved a ce : well_behaved (Part001.executeMeetingFollowUpAutomation a ce).
Proof.
  unfold Part001.executeMeetingFollowUpAutomation, Part001.executeMeetingFollowUpAutomation_body.
  wb_solve.
Qed.

Lemma dispatch_well_behaved hs a ce :
  In hs versions -> well_behaved (dispatch hs a ce).
Proof.
  intros Hin. unfold dispatch.
  destruct Hin as [<- | [<- | []]]; simpl;
    repeat case_match;
    first [ apply email000_well_behaved | apply meeting000_well_behaved
          | apply summary_well_behaved | apply email001_well_behaved
          | apply meeting001_well_behaved
          | intros env; wb_close ].
Qed.

(** The shape of every enabled execution: the insert, the handler's calls,
    then the update of the inserted row (when the insert returned one). *)
Lemma executeAutomation_enabled hs a ce env res hcalls :
  is_disabled a = false ->
  run (dispatch hs a ce) env = (Ret res, hcalls) ->
  run (executeAutomation_with hs a ce) env =
    (Ret res, ([InsertRun (or_str (automation_id a) (id a))] ++ hcalls ++ final_update env a res)%list).
Proof.
  intros Hen Hd. unfold run in *.
  unfold executeAutomation_with, final_update. rewrite Hen.
  unfold_m. rewrite Hd.
  destruct (insert_run_resp env); simpl; rewrite ?app_nil_r; reflexivity.
Qed.

Lemma omap_run_status_nil (l : list Call) :
  Forall (fun c => touches_runs c = false) l -> omap run_status l = [].
Proof.
  induction 1 as [|c l Hc _ IH]; [reflexivity|].
  destruct c; simpl in *; try discriminate; exact IH.
Qed.

Lemma filter_touches_runs_nil (l : list Call) :
  Forall (fun c => touches_runs c = false) l -> List.filter touches_runs l = [].
Proof.
  induction 1 as [|c l Hc _ IH]; [reflexivity|]. simpl. rewrite Hc. exact IH.
Qed.

Lemma count_api_app (l1 l2 : list Call) :
  count_api (l1 ++ l2) = (count_api l1 + count_api l2)%nat.
Proof. unfold count_api. rewrite List.filter_app, List.length_app. reflexivity. Qed.

Lemma count_api_final_update env a res : count_api (final_update env a res) = 0%nat.
Proof. unfold final_update. destruct (insert_run_resp env); reflexivity. Qed.

Lemma touches_runs_write (l : list Call) :
  Forall (fun c => is_write c = false) l -> Forall (fun c => touches_runs c = false) l.
Proof.
  intros H. eapply Forall_impl; [exact H|]. intros [] Hc; simpl in *; congruence.
Qed.

Lemma executeAutomation_enabled_ex hs a ce env :
  In hs versions -> is_disabled a = false ->
  exists res hcalls,
    run (executeAutomation_with hs a ce) env =
      (Ret res, ([InsertRun (or_str (automation_id a) (id a))] ++ hcalls ++
                 final_update env a res)%list) /\
    run (dispatch hs a ce) env = (Ret res, hcalls) /\
    Forall (fun c => touches_runs c = false) hcalls /\
    (count_api hcalls <= 1)%nat /\
    Forall (fun c => is_write c = false) hcalls.
Proof.
  intros Hin Hen.
  destruct (dispatch_well_behaved hs a ce Hin env) as (res & Hres & Hf & Hc).
  exists res, (snd (dispatch hs a ce env)).
  assert (Hd : run (dispatch hs a ce) env = (Ret res, snd (dispatch hs a ce env))).
  { unfold run. rewrite <- Hres. destruct (dispatch hs a ce env); reflexivity. }
  repeat split; auto using touches_runs_write.
  apply executeAutomation_enabled; assumption.
Qed.

(** C1 (amended).  For every enabled automation, in both versions of the
    executor, the first call is the insert of an [automation_runs] row with
    status "running", before any call of the handler.  The handler's calls
    never touch [automation_runs].  If the insert returned a row [r], the
    last call is the single update of [r], to "completed" when the handler's
    result has [success] true and to "failed" otherwise ([final_update]);
    if the insert failed, the handler still runs and no row is updated. *)
Theorem executeAutomation_run_row_lifecycle hs a ce env :
  In hs versions -> is_disabled a = false ->
  exists res hcalls,
    run (executeAutomation_with hs a ce) env =
      (Ret res, ([InsertRun (or_str (automation_id a) (id a))] ++ hcalls ++
                 final_update env a res)%list) /\
    run (dispatch hs a ce) env = (Ret res, hcalls) /\
    Forall (fun c => touches_runs c = false) hcalls /\
    final_update env a res =
      match insert_run_resp env with
      | Some r => [UpdateRun r (if success res then "completed" else "failed")
                    (if success res then None else Some (message res))
                    (if success res && is_summary a then data res else None)]
      | None => []
      end.
Proof.
  intros Hin Hen.
  destruct (executeAutomation_enabled_ex hs a ce env Hin Hen) as (res & hcalls & H1 & H2 & H3 & _ & _).
  exists res, hcalls. repeat split; auto.
Qed.

Lemma executeAutomation_run_row_lifecycle_witness :
  In Part000.handlers versions /\ is_disabled (email_automation "hi") = false /\
  exists res hcalls,
    run (executeAutomation_with Part000.handlers (email_automation "hi") None) env_ok =
      (Ret res, ([InsertRun (Some "a-1")] ++ hcalls ++ final_update env_ok (email_automation "hi") res)%list) /\
    run (dispatch Part000.handlers (email_automation "hi") None) env_ok = (Ret res, hcalls) /\
    Forall (fun c => touches_runs c = false) hcalls /\
    final_update env_ok (email_automation "hi") res =
      [UpdateRun "run-1" (if success res then "completed" else "failed")
         (if success res then None else Some (message res))
         (if success res && is_summary (email_automation "hi") then data res else None)].
Proof.
  split; [left; reflexivity|]. split; [reflexivity|].
  apply (executeAutomation_run_row_lifecycle Part000.handlers (email_automation "hi") None env_ok);
    [left; reflexivity | reflexivity].
Defined.

(** C1 counterexample.  When the [automation_runs] insert fails, the enabled
    email automation still sends its mail and no run row is ever updated. *)
Lemma executeAutomation_no_run_row_counterexample :
  run (Part000.executeAutomation (email_automation "hi") None) env_no_run =
    (Ret (mkResult true "Email sent successfully"
            (Some (RDEmail "ada@example.com" "Hello" (Some "mail-1")))),
     [InsertRun (Some "a-1"); SelectClientEmail "c-1"; GetSession;
      InvokeSendEmail "ada@example.com" "Hello"]) /\
  insert_run_resp env_no_run = None.
Proof. split; vm_compute; reflexivity. Qed.

(** C2 (amended).  When the run row is created, the statuses written to it
    are exactly "running" and then one of "completed" or "failed"; the
    terminal status is "completed" exactly when the result the handler
    returned (which [executeAutomation] returns) has [success] true. *)
Theorem executeAutomation_run_statuses hs a ce env r :
  In hs versions -> is_disabled a = false -> insert_run_resp env = Some r ->
  exists res,
    fst (run (executeAutomation_with hs a ce) env) = Ret res /\
    fst (run (dispatch hs a ce) env) = Ret res /\
    run_statuses (snd (run (executeAutomation_with hs a ce) env)) =
      ["running"; if success res then "completed" else "failed"].
Proof.
  intros Hin Hen Hr.
  destruct (executeAutomation_enabled_ex hs a ce env Hin Hen) as (res & hcalls & H1 & H2 & H3 & _ & _).
  exists res. rewrite H1, H2. repeat split.
  simpl. unfold run_statuses. rewrite omap_app. simpl.
  rewrite (omap_run_status_nil hcalls H3).
  unfold final_update. rewrite Hr. simpl. reflexivity.
Qed.

Lemma executeAutomation_run_statuses_witness :
  In Part001.handlers versions /\ is_disabled (email_automation "hi") = false /\
  insert_run_resp env_ok = Some "run-1" /\
  exists res,
    fst (run (executeAutomation_with Part001.handlers (email_automation "hi") None) env_ok) = Ret res /\
    fst (run (dispatch Part001.handlers (email_automation "hi") None) env_ok) = Ret res /\
    run_statuses (snd (run (executeAutomation_with Part001.handlers (email_automation "hi") None) env_ok)) =
      ["running"; if success res then "completed" else "failed"].
Proof.
  split; [right; left; reflexivity|]. split; [reflexivity|]. split; [reflexivity|].
  apply (executeAutomation_run_statuses Part001.handlers (email_automation "hi") None env_ok "run-1");
    [right; left; reflexivity | reflexivity | reflexivity].
Defined.

(** C2 counterexample.  The terminal state is not driven by a remote call
    throwing: an email automation with an empty message ends "failed"
    although the handler makes no remote call at all (and, in this model as
    in the backend client, a remote call reports errors in its answer
    instead of throwing). *)
Lemma executeAutomation_failed_without_call_counterexample :
  run (Part000.executeAutomation (email_automation "") None) env_ok =
    (Ret (mkResult false "Email message is required" None),
     [InsertRun (Some "a-1");
      UpdateRun "run-1" "failed" (Some "Email message is required") None]).
Proof. vm_compute. reflexivity. Qed.

(** C4 (amended).  When an enabled execution fails, the result is the
    handler's own result (it is computed once, and at most one API call is
    made: no retry); the only writes on [automation_runs] are the "running"
    insert and, if that insert returned a row, one update of that row to
    "failed" with [error_message] equal to the returned message.  When the
    insert returned no row, nothing is updated. *)
Theorem executeAutomation_failure_handling hs a ce env res :
  In hs versions -> is_disabled a = false ->
  fst (run (executeAutomation_with hs a ce) env) = Ret res -> success res = false ->
  fst (run (dispatch hs a ce) env) = Ret res /\
  List.filter touches_runs (snd (run (executeAutomation_with hs a ce) env)) =
    InsertRun (or_str (automation_id a) (id a)) ::
      match insert_run_resp env with
      | Some r => [UpdateRun r "failed" (Some (message res)) None]
      | None => []
      end /\
  (count_api (snd (run (executeAutomation_with hs a ce) env)) <= 1)%nat.
Proof.
  intros Hin Hen Hres Hfail.
  destruct (executeAutomation_enabled_ex hs a ce env Hin Hen) as (res' & hcalls & H1 & H2 & H3 & H4 & _).
  rewrite H1 in Hres |- *. simpl in Hres. injection Hres as <-.
  rewrite H2. split; [reflexivity|]. split.
  - simpl. rewrite List.filter_app, (filter_touches_runs_nil hcalls H3). simpl.
    unfold final_update. rewrite Hfail. destruct (insert_run_resp env); reflexivity.
  - pose proof (count_api_final_update env a res') as Hf.
    simpl. unfold count_api in *. simpl. rewrite List.filter_app, List.length_app. lia.
Qed.

Lemma executeAutomation_failure_handling_witness :
  In Part000.handlers versions /\ is_disabled (email_automation "") = false /\
  fst (run (executeAutomation_with Part000.handlers (email_automation "") None) env_ok) =
    Ret (mkResult false "Email message is required" None) /\
  success (mkResult false "Email message is required" None) = false /\
  fst (run (dispatch Part000.handlers (email_automation "") None) env_ok) =
    Ret (mkResult false "Email message is required" None) /\
  List.filter touches_runs (snd (run (executeAutomation_with Part000.handlers (email_automation "") None) env_ok)) =
    [InsertRun (Some "a-1");
     UpdateRun "run-1" "failed" (Some "Email message is required") None] /\
  (count_api (snd (run (executeAutomation_with Part000.handlers (email_automation "") None) env_ok)) <= 1)%nat.
Proof.
  do 4 (split; [first [left; reflexivity | vm_compute; reflexivity]|]).
  apply (executeAutomation_failure_handling Part000.handlers (email_automation "") None env_ok);
    [left; reflexivity | reflexivity | vm_compute; reflexivity | reflexivity].
Defined.

(** C4 counterexample.  A failing execution whose run insert failed updates
    no row: no "failed" status and no [error_message] are written. *)
Lemma executeAutomation_failure_no_update_counterexample :
  run (Part000.executeAutomation (email_automation "") None) env_no_run =
    (Ret (mkResult false "Email message is required" None),
     [InsertRun (Some "a-1")]).
Proof. vm_compute. reflexivity. Qed.

(** C9.  A disabled automation ([is_enabled] and [is_active] both falsy)
    yields [{ success: false, message: "Automation is disabled" }] and makes
    no remote call: no insert, no handler, no email or HTTP call, whatever
    the handlers and the backend. *)
Theorem executeAutomation_disabled hs a ce env :
  is_disabled a = true ->
  run (executeAutomation_with hs a ce) env =
    (Ret (mkResult false "Automation is disabled" None), []).
Proof.
  intros Hdis. unfold run, executeAutomation_with. rewrite Hdis. reflexivity.
Qed.

Lemma executeAutomation_disabled_witness :
  is_disabled disabled_automation = true /\
  run (executeAutomation_with Part000.handlers disabled_automation None) env_ok =
    (Ret (mkResult false "Automation is disabled" None), []).
Proof.
  split; [reflexivity|].
  apply (executeAutomation_disabled Part000.handlers disabled_automation None env_ok).
  reflexivity.
Defined.

(** The calls of a successful AI-summary handler. *)
Lemma summary_success_run n a env cid row k choices :
  client_id (config_of a) = Some cid -> cid <> "" ->
  client_by_resp env "client_id" cid = SOk row ->
  openai_key env = Some k -> trim k <> "" ->
  chat_resp env = ChatOk (Some choices) ->
  let acid := or_default (or_str (cr_client_id row) (cr_id row)) cid in
  exists res,
    run (executeAIClientSummaryAutomation_with n a) env =
      (Ret res, [SelectClientBy "client_id" cid; SelectDeals acid; SelectInteractions acid;
                 SelectPrioritization acid; FetchChatCompletion n]) /\
    success res = true.
Proof.
  intros Hcid Hne Hrow Hk Htrim Hchat acid.
  assert (Hk' : k <> "") by (intros ->; apply Htrim; reflexivity).
  unfold executeAIClientSummaryAutomation_with, executeAIClientSummaryAutomation_with_body,
    getOpenAIApiKey.
  unfold_m. rewrite Hcid. simpl.
  apply String.eqb_neq in Hne. rewrite Hne. simpl.
  apply String.eqb_neq in Hk'. apply String.eqb_neq in Htrim.
  repeat progress (rewrite ?Hrow, ?Hk, ?Hk', ?Htrim, ?Hchat; simpl).
  eexists. split; reflexivity.
Qed.

(** C3 (amended).  The pipeline is a linear sequence inside [try]/[catch],
    but it does not make exactly three remote calls: the number depends on
    the type and on the answers.  In part_000, when the "running" row is
    inserted, the client is found by [client_id] at the first lookup, a key
    is configured and the model answers, the AI-summary execution succeeds
    with seven calls, in this order: insert the "running" row, look up the
    client by [client_id], read its deals, its interactions and its latest
    prioritization, call the chat-completion API, update the row to
    "completed". *)
Theorem executeAutomation_summary_calls a env cid row k choices r :
  is_disabled a = false -> action_type_of a = Some "ai-summary" ->
  client_id (config_of a) = Some cid -> cid <> "" ->
  insert_run_resp env = Some r ->
  client_by_resp env "client_id" cid = SOk row ->
  openai_key env = Some k -> trim k <> "" ->
  chat_resp env = ChatOk (Some choices) ->
  let acid := or_default (or_str (cr_client_id row) (cr_id row)) cid in
  exists res,
    run (Part000.executeAutomation a None) env =
      (Ret res, [InsertRun (or_str (automation_id a) (id a));
                 SelectClientBy "client_id" cid; SelectDeals acid; SelectInteractions acid;
                 SelectPrioritization acid; FetchChatCompletion 500;
                 UpdateRun r "completed" None (data res)]) /\
    success res = true.
Proof.
  intros Hen Htype Hcid Hne Hr Hrow Hk Htrim Hchat acid.
  destruct (summary_success_run 500 a env cid row k choices Hcid Hne Hrow Hk Htrim Hchat)
    as (res & Hrun & Hsucc).
  exists res. split; [|exact Hsucc].
  assert (Hsum : is_summary a = true).
  { unfold action_type_of, or_str in Htype. unfold is_summary.
    destruct (str_truthy (action_type_type a)); rewrite Htype; simpl;
      [reflexivity | apply orb_true_r]. }
  assert (Hd : run (dispatch Part000.handlers a None) env = (Ret res,
             [SelectClientBy "client_id" cid; SelectDeals acid; SelectInteractions acid;
              SelectPrioritization acid; FetchChatCompletion 500])).
  { unfold dispatch. rewrite Htype. exact Hrun. }
  unfold Part000.executeAutomation.
  rewrite (executeAutomation_enabled _ _ _ _ _ _ Hen Hd).
  unfold final_update. rewrite Hr, Hsucc, Hsum. reflexivity.
Qed.

Lemma executeAutomation_summary_calls_witness :
  is_disabled summary_automation = false /\ action_type_of summary_automation = Some "ai-summary" /\
  client_id (config_of summary_automation) = Some "c-1" /\ "c-1" <> "" /\
  insert_run_resp env_ok = Some "run-1" /\
  client_by_resp env_ok "client_id" "c-1" = SOk sample_client /\
  openai_key env_ok = Some "sk-test" /\ trim "sk-test" <> "" /\
  chat_resp env_ok = ChatOk (Some [Some "A loyal client."]) /\
  exists res,
    run (Part000.executeAutomation summary_automation None) env_ok =
      (Ret res, [InsertRun (Some "a-2");
                 SelectClientBy "client_id" "c-1"; SelectDeals "c-1"; SelectInteractions "c-1";
                 SelectPrioritization "c-1"; FetchChatCompletion 500;
                 UpdateRun "run-1" "completed" None (data res)]) /\
    success res = true.
Proof.
  assert (H1 : "c-1" <> "") by discriminate.
  assert (H2 : trim "sk-test" <> "") by (vm_compute; discriminate).
  do 9 (split; [first [reflexivity | assumption]|]).
  exact (executeAutomation_summary_calls summary_automation env_ok "c-1" sample_client
           "sk-test" [Some "A loyal client."] "run-1"
           eq_refl eq_refl eq_refl H1 eq_refl eq_refl eq_refl H2 eq_refl).
Defined.

(** C3 counterexample.  This successful AI-summary execution makes seven
    remote calls, not three. *)
Lemma executeAutomation_seven_calls_counterexample :
  snd (run (Part000.executeAutomation summary_automation None) env_ok) =
    [InsertRun (Some "a-2"); SelectClientBy "client_id" "c-1"; SelectDeals "c-1";
     SelectInteractions "c-1"; SelectPrioritization "c-1"; FetchChatCompletion 500;
     UpdateRun "run-1" "completed" None
       (Some (RDSummary "c-1" "Ada Lovelace" "A loyal client."))] /\
  List.length (snd (run (Part000.executeAutomation summary_automation None) env_ok)) <> 3%nat.
Proof. split; vm_compute; [reflexivity | discriminate]. Qed.

Lemma catch_result_catches_all fb body :
  (forall env r, fst (body env) = Ret r -> success r = true) ->
  catches_all fb body (catch_result fb body).
Proof.
  intros Hbody env. unfold catch_result, try_catch.
  destruct (body env) as [[r|e] t] eqn:Hb; simpl.
  - exists r. split; [reflexivity|]. split.
    + intros Hf. pose proof (Hbody env r) as Hs. rewrite Hb in Hs.
      specialize (Hs eq_refl). congruence.
    + intros (e & He & _). simpl in He. discriminate.
  - unfold mret, M_ret. simpl.
    eexists. split; [reflexivity|]. split.
    + intros _. exists e. split; reflexivity.
    + reflexivity.
Qed.

Ltac body_solve :=
  intros env r Hr; unfold_m;
  repeat (case_match; simpl in *; try congruence); simplify_eq; reflexivity.

Lemma email000_body_success a ce env r :
  fst (Part000.executeEmailAutomation_body a ce env) = Ret r -> success r = true.
Proof.
  revert env r. unfold Part000.executeEmailAutomation_body, resolveRecipient. body_solve.
Qed.

Lemma meeting000_body_success a ce env r :
  fst (Part000.executeMeetingFollowUpAutomation_body a ce env) = Ret r -> success r = true.
Proof.
  revert env r. unfold Part000.executeMeetingFollowUpAutomation_body, resolveRecipient.
  body_solve.
Qed.

Lemma summary_body_success n a env r :
  fst (executeAIClientSummaryAutomation_with_body n a env) = Ret r -> success r = true.
Proof.
  revert env r. unfold executeAIClientSummaryAutomation_with_body, getOpenAIApiKey.
  body_solve.
Qed.

(** C5.  None of the part_000 handlers throws: for every automation, client
    email and backend, each returns a result, and the result has [success]
    false exactly when its [try] block threw an error [e], in which case the
    message is [e.message], or the handler's fixed fallback when that
    message is empty. *)
Theorem handlers_never_throw a ce :
  catches_all "Failed to send email"
    (Part000.executeEmailAutomation_body a ce) (Part000.executeEmailAutomation a ce) /\
  catches_all "Failed to send meeting follow-up email"
    (Part000.executeMeetingFollowUpAutomation_body a ce)
    (Part000.executeMeetingFollowUpAutomation a ce) /\
  catches_all "Failed to generate AI summary"
    (executeAIClientSummaryAutomation_with_body 500 a)
    (Part000.executeAIClientSummaryAutomation a).
Proof.
  split; [|split]; apply catch_result_catches_all.
  - apply email000_body_success.
  - apply meeting000_body_success.
  - apply summary_body_success.
Qed.

(** C7 (amended).  Not every data operation is a single write.  An enabled
    execution whose insert returned the row [r] writes twice to
    [automation_runs]: the insert, then an update of the row [r] the insert
    returned (the handlers write nothing).  [useDeleteAutomation] deletes
    the automation's [automation_runs] rows and then the [automations] row,
    the second delete being issued whatever the first one answered. *)
Theorem multi_write_operations hs a ce env r automationId :
  In hs versions -> is_disabled a = false -> insert_run_resp env = Some r ->
  (exists st em rd,
     List.filter is_write (snd (run (executeAutomation_with hs a ce) env)) =
       [InsertRun (or_str (automation_id a) (id a)); UpdateRun r st em rd]) /\
  snd (run (useDeleteAutomation_mutationFn automationId) env) =
    [DeleteRuns automationId; DeleteAutomation automationId].
Proof.
  intros Hin Hen Hr. split.
  - destruct (executeAutomation_enabled_ex hs a ce env Hin Hen)
      as (res & hcalls & H1 & _ & _ & _ & Hw).
    rewrite H1. simpl. rewrite List.filter_app.
    assert (Hn : List.filter is_write hcalls = []).
    { clear H1. induction Hw as [|c l Hc _ IH]; [reflexivity|]. simpl. rewrite Hc. exact IH. }
    rewrite Hn. unfold final_update. rewrite Hr. simpl. eauto.
  - unfold run, useDeleteAutomation_mutationFn. unfold_m. simpl.
    destruct (delete_automation_error env); reflexivity.
Qed.

Lemma multi_write_operations_witness :
  In Part000.handlers versions /\ is_disabled (email_automation "hi") = false /\
  insert_run_resp env_ok = Some "run-1" /\
  (exists st em rd,
     List.filter is_write (snd (run (executeAutomation_with Part000.handlers (email_automation "hi") None) env_ok)) =
       [InsertRun (Some "a-1"); UpdateRun "run-1" st em rd]) /\
  snd (run (useDeleteAutomation_mutationFn "a-1") env_ok) = [DeleteRuns "a-1"; DeleteAutomation "a-1"].
Proof.
  do 3 (split; [first [left; reflexivity | reflexivity]|]).
  apply (multi_write_operations Part000.handlers (email_automation "hi") None env_ok "run-1" "a-1");
    [left; reflexivity | reflexivity | reflexivity].
Defined.

(** C7 counterexample.  One call of [executeAutomation] writes twice, the
    update targeting the id the insert returned; one call of
    [useDeleteAutomation] writes to two tables. *)
Lemma two_writes_counterexample :
  count_writes (snd (run (Part000.executeAutomation (email_automation "hi") None) env_ok)) = 2%nat /\
  List.filter is_write (snd (run (Part000.executeAutomation (email_automation "hi") None) env_ok)) =
    [InsertRun (Some "a-1"); UpdateRun "run-1" "completed" None None] /\
  insert_run_resp env_ok = Some "run-1" /\
  count_writes (snd (run (useDeleteAutomation_mutationFn "a-1") env_ok)) = 2%nat.
Proof. vm_compute. repeat split. Qed.

Lemma get_insert_eq (m : gmap string jsval) k v : get (<[k:=v]> m) k = v.
Proof. unfold get. rewrite lookup_insert_eq. reflexivity. Qed.

Lemma get_insert_ne (m : gmap string jsval) k k' v : k <> k' -> get (<[k:=v]> m) k' = get m k'.
Proof. intros H. unfold get. rewrite lookup_insert_ne by exact H. reflexivity. Qed.

Lemma js_or_null a b :
  js_or (js_or a b) JNull = (if truthy a then a else if truthy b then b else JNull).
Proof.
  unfold js_or. destruct (truthy a) eqn:Ha; simpl; [rewrite Ha; reflexivity|].
  destruct (truthy b); reflexivity.
Qed.

(** C6.  For a signed-in user, [useClients] returns one record per fetched
    row, in order, and each record applies the column fallbacks ("present"
    meaning a truthy value, as [||] tests it): [id] is [client_id] when
    present and [id] otherwise; [source] is [source], else [lead_source],
    else [null]; [status] is [priority], else [status], else [null]; every
    other column is passed through unchanged. *)
Theorem useClients_field_fallbacks (userId : option string) (rows : list (gmap string jsval)) :
  str_truthy userId = true ->
  useClients_queryFn userId (LData (Some rows)) = Ret (map mapClient rows) /\
  Forall (fun row =>
    get (mapClient row) "id" =
      (if truthy (get row "client_id") then get row "client_id" else get row "id") /\
    get (mapClient row) "source" =
      (if truthy (get row "source") then get row "source"
       else if truthy (get row "lead_source") then get row "lead_source" else JNull) /\
    get (mapClient row) "status" =
      (if truthy (get row "priority") then get row "priority"
       else if truthy (get row "status") then get row "status" else JNull) /\
    (forall k, k <> "id" -> k <> "source" -> k <> "status" -> mapClient row !! k = row !! k))
    rows.
Proof.
  intros Hu. split.
  - unfold useClients_queryFn. rewrite Hu. reflexivity.
  - apply Forall_forall. intros row _. unfold mapClient. split; [|split; [|split]].
    + rewrite !get_insert_ne by discriminate. apply get_insert_eq.
    + rewrite get_insert_ne by discriminate. rewrite get_insert_eq.
      apply js_or_null.
    + rewrite get_insert_eq.
      apply js_or_null.
    + intros k H1 H2 H3.
      rewrite !lookup_insert_ne by congruence. reflexivity.
Qed.

Lemma useClients_field_fallbacks_witness :
  str_truthy (Some "u-1") = true /\
  useClients_queryFn (Some "u-1") (LData (Some [<["id" := JStr "7"]> (<["lead_source" := JStr "web"]> ∅)])) =
    Ret (map mapClient [<["id" := JStr "7"]> (<["lead_source" := JStr "web"]> ∅)]) /\
  Forall (fun row =>
    get (mapClient row) "id" =
      (if truthy (get row "client_id") then get row "client_id" else get row "id") /\
    get (mapClient row) "source" =
      (if truthy (get row "source") then get row "source"
       else if truthy (get row "lead_source") then get row "lead_source" else JNull) /\
    get (mapClient row) "status" =
      (if truthy (get row "priority") then get row "priority"
       else if truthy (get row "status") then get row "status" else JNull) /\
    (forall k, k <> "id" -> k <> "source" -> k <> "status" -> mapClient row !! k = row !! k))
    [<["id" := JStr "7"]> (<["lead_source" := JStr "web"]> ∅)].
Proof.
  split; [reflexivity|].
  apply (useClients_field_fallbacks (Some "u-1")). reflexivity.
Defined.

Lemma normalizePriority_in s : In (normalizePriority s) ["low"; "medium"; "high"].
Proof.
  unfold normalizePriority.
  destruct (String.eqb_spec (trim (toLowerCase s)) "low") as [->|]; [simpl; auto|].
  destruct (String.eqb_spec (trim (toLowerCase s)) "medium") as [->|]; [simpl; auto|].
  destruct (String.eqb_spec (trim (toLowerCase s)) "high") as [->|]; simpl; auto.
Qed.

Lemma normalizeSentiment_in s : In (normalizeSentiment s) ["low"; "mid"; "high"].
Proof.
  unfold normalizeSentiment.
  destruct (String.eqb_spec (trim (toLowerCase s)) "low") as [->|]; [simpl; auto|].
  destruct (String.eqb_spec (trim (toLowerCase s)) "mid") as [->|]; [simpl; auto|].
  destruct (String.eqb_spec (trim (toLowerCase s)) "medium") as [->|]; [simpl; auto|].
  destruct (String.eqb_spec (trim (toLowerCase s)) "high") as [->|]; simpl; auto.
Qed.

Lemma analyzeDocument_normalized JSON_parse kind env r :
  fst (analyzeDocument JSON_parse kind env) = Ret r -> normalized_result r.
Proof.
  unfold analyzeDocument, lift. unfold_m. intros Hr.
  repeat (case_match; simpl in *; try congruence); simplify_eq.
  unfold on_string in *. repeat case_match; simplify_eq.
  split; [apply normalizePriority_in|]. split; [apply normalizeSentiment_in|].
  simpl. eauto.
Qed.

Lemma analyze_with_key_normalized JSON_parse kind (pre : M string) env r :
  fst ((_ ← pre; analyzeDocument JSON_parse kind) env) = Ret r -> normalized_result r.
Proof.
  unfold mbind, M_bind. destruct (pre env) as [[k|e] t]; simpl; [|discriminate].
  destruct (analyzeDocument JSON_parse kind env) as [o t2] eqn:Ha. simpl. intros ->.
  apply (analyzeDocument_normalized JSON_parse kind env). rewrite Ha. reflexivity.
Qed.

Lemma analyze_with_file_normalized JSON_parse kind (pre : M string) (o : Outcome string) env r :
  fst ((_ ← pre; _ ← lift o; analyzeDocument JSON_parse kind) env) = Ret r -> normalized_result r.
Proof.
  unfold mbind, M_bind. destruct (pre env) as [[k|e] t]; simpl; [|discriminate].
  unfold lift. destruct o as [b|e]; simpl; [|discriminate].
  destruct (analyzeDocument JSON_parse kind env) as [o t2] eqn:Ha. simpl. intros ->.
  apply (analyzeDocument_normalized JSON_parse kind env). rewrite Ha. reflexivity.
Qed.

(** C8.  Whatever the model answers and however [JSON.parse] reads it, an
    analysis returned by [analyzeImageWithOpenAI] or [analyzePDFWithOpenAI]
    has its priority in {"low", "medium", "high"} and its sentiment in
    {"low", "mid", "high"}, both obtained through the normalisers.  These
    compare the string lower-cased then trimmed, so two strings equal
    after lower-casing and trimming normalise alike; a recognised value is
    kept; the sentiment "medium" becomes "mid"; an unrecognised priority
    becomes "medium" and an unrecognised sentiment "mid". *)
Theorem analysis_normalized JSON_parse reader apiKey env :
  (forall r, fst (run (analyzeImageWithOpenAI JSON_parse reader apiKey) env) = Ret r ->
     normalized_result r) /\
  (forall r, fst (run (analyzePDFWithOpenAI JSON_parse reader apiKey) env) = Ret r ->
     normalized_result r) /\
  (forall s t, trim (toLowerCase s) = trim (toLowerCase t) ->
     normalizePriority s = normalizePriority t /\ normalizeSentiment s = normalizeSentiment t) /\
  (forall s, In (trim (toLowerCase s)) ["low"; "medium"; "high"] ->
     normalizePriority s = trim (toLowerCase s)) /\
  (forall s, In (trim (toLowerCase s)) ["low"; "mid"; "high"] ->
     normalizeSentiment s = trim (toLowerCase s)) /\
  (forall s, trim (toLowerCase s) = "medium" -> normalizeSentiment s = "mid") /\
  (forall s, ~ In (trim (toLowerCase s)) ["low"; "medium"; "high"] ->
     normalizePriority s = "medium") /\
  (forall s, ~ In (trim (toLowerCase s)) ["low"; "mid"; "medium"; "high"] ->
     normalizeSentiment s = "mid").
Proof.
  split; [|split; [|split; [|split; [|split; [|split; [|split]]]]]].
  - intros r. apply analyze_with_file_normalized.
  - intros r. apply analyze_with_file_normalized.
  - intros s t Hst. unfold normalizePriority, normalizeSentiment. rewrite Hst. split; reflexivity.
  - intros s Hin. unfold normalizePriority.
    destruct Hin as [<-|[<-|[<-|[]]]]; rewrite ?H; reflexivity.
  - intros s Hin. unfold normalizeSentiment.
    destruct Hin as [<-|[<-|[<-|[]]]]; reflexivity.
  - intros s H. unfold normalizeSentiment. rewrite H. reflexivity.
  - intros s Hn. unfold normalizePriority.
    destruct (String.eqb_spec (trim (toLowerCase s)) "low") as [E|]; [rewrite E in Hn; simpl in Hn; tauto|].
    destruct (String.eqb_spec (trim (toLowerCase s)) "medium") as [E|]; [rewrite E in Hn; simpl in Hn; tauto|].
    destruct (String.eqb_spec (trim (toLowerCase s)) "high") as [E|]; [rewrite E in Hn; simpl in Hn; tauto|].
    reflexivity.
  - intros s Hn. unfold normalizeSentiment.
    destruct (String.eqb_spec (trim (toLowerCase s)) "low") as [E|]; [rewrite E in Hn; simpl in Hn; tauto|].
    destruct (String.eqb_spec (trim (toLowerCase s)) "mid") as [E|]; [rewrite E in Hn; simpl in Hn; tauto|].
    destruct (String.eqb_spec (trim (toLowerCase s)) "medium") as [E|]; [rewrite E in Hn; simpl in Hn; tauto|].
    destruct (String.eqb_spec (trim (toLowerCase s)) "high") as [E|]; [rewrite E in Hn; simpl in Hn; tauto|].
    reflexivity.
Qed.

(** An answer ["  HIGH "] / ["Medium"] is normalised to "high" / "mid". *)
Example analyzeImage_sample :
  fst (run (analyzeImageWithOpenAI
              (fun _ => Ret (JObj [("priority", JStr "  HIGH "); ("sentiment", JStr "Medium")]))
              (Ret "data:image/png;base64,iVBORw0KGgo=") None) env_ok) =
  Ret (mkAnalysis "high" (JNum 0) "mid" (JStr "")).
Proof. vm_compute. reflexivity. Qed.


(** ** The dashboard's priority list *)

Lemma priorityOf_plain p :
  is_prototype_member p = false -> priorityOf p = PNum (claim_rank p).
Proof.
  intros Hp. unfold priorityOf, priorityOrder_get, claim_rank.
  unfold is_prototype_member in Hp.
  destruct (String.eqb p "high"); [reflexivity|].
  destruct (String.eqb p "medium"); [reflexivity|].
  destruct (String.eqb p "low"); [reflexivity|].
  rewrite Hp. reflexivity.
Qed.

Definition plain_item (x : PItem) : Prop := is_prototype_member (p_priority x) = false.

Lemma compare_plain x y :
  plain_item x -> plain_item y ->
  (cmp_gt0 (compare y x) = true -> claim_before x y) /\
  (cmp_gt0 (compare y x) = false -> claim_before y x).
Proof.
  unfold plain_item, claim_before, compare. intros Hx Hy.
  rewrite (priorityOf_plain _ Hx), (priorityOf_plain _ Hy). simpl.
  destruct (Z.eqb_spec (claim_rank (p_priority x)) (claim_rank (p_priority y))) as [E|E];
    simpl; split; intros H; apply Z.ltb_lt in H || apply Z.ltb_ge in H; lia.
Qed.

Lemma sort_insert_in x l z : In z (sort_insert x l) -> z = x \/ In z l.
Proof.
  induction l as [|y l IH]; simpl.
  - intros [->|[]]; auto.
  - destruct (cmp_gt0 (compare y x)); simpl.
    + intros [->|[->|H]]; auto.
    + intros [->|H]; auto. destruct (IH H); auto.
Qed.

Lemma sort_insert_sorted x l :
  plain_item x -> Forall plain_item l -> Sorted claim_before l ->
  Sorted claim_before (sort_insert x l).
Proof.
  revert x. induction l as [|y l IH]; intros x Hx Hl Hs; simpl.
  - repeat constructor.
  - inversion Hl as [|? ? Hy Hl']; subst.
    pose proof (compare_plain x y Hx Hy) as [Hgt Hle].
    destruct (cmp_gt0 (compare y x)) eqn:E.
    + constructor; [assumption | constructor; auto].
    + inversion Hs as [|? ? Hs' Hhd]; subst. constructor; [apply IH; auto|].
      destruct l as [|z l'].
      * simpl. constructor. auto.
      * simpl. inversion Hl' as [|? ? Hz _]; subst.
        destruct (cmp_gt0 (compare z x)); constructor; auto.
        inversion Hhd; assumption.
Qed.

Lemma js_sort_sorted l :
  Forall plain_item l -> Sorted claim_before (js_sort l).
Proof.
  unfold js_sort.
  assert (forall acc, Forall plain_item acc -> Sorted claim_before acc ->
            Forall plain_item l ->
            Sorted claim_before (fold_left (fun acc x => sort_insert x acc) l acc)) as G.
  { induction l as [|x l IH]; intros acc Ha Hs Hl; simpl; [assumption|].
    inversion Hl; subst. apply IH; auto.
    - apply List.Forall_forall. intros z Hz. apply sort_insert_in in Hz as [->|Hz]; auto.
      rewrite List.Forall_forall in Ha. auto.
    - apply sort_insert_sorted; auto. }
  intros Hl. apply G; auto.
Qed.

Lemma Sorted_firstn {A} (R : A -> A -> Prop) n l :
  Sorted R l -> Sorted R (firstn n l).
Proof.
  revert n. induction l as [|a l IH]; intros n H; destruct n; simpl; auto.
  inversion H as [|? ? Hl Hhd]; subst. constructor; auto.
  destruct l as [|b l]; destruct n; simpl; auto.
  inversion Hhd; subst. constructor. assumption.
Qed.

Lemma length_firstn_le {A} n (l : list A) : (List.length (firstn n l) <= n)%nat.
Proof. revert l. induction n; intros [|a l]; simpl; try lia. specialize (IHn l). lia. Qed.

(** The list holds at most five clients and, when no client's priority is
    the name of a member inherited from [Object.prototype], it is ordered
    by non-increasing rank (high 3, medium 2, low 1, anything else 2), then
    by non-increasing number of deals. *)
Theorem priorityClients_sorted_plain clients deals :
  Forall (fun c => is_prototype_member (or_default (c_status c) "medium") = false) clients ->
  (List.length (priorityClients clients deals) <= 5)%nat /\
  Sorted claim_before (priorityClients clients deals).
Proof.
  intros Hc. split; [apply length_firstn_le|].
  apply Sorted_firstn, js_sort_sorted.
  apply List.Forall_forall. intros x Hx. apply List.in_map_iff in Hx as [c [<- Hc']].
  rewrite List.Forall_forall in Hc. apply Hc. assumption.
Qed.

Lemma priorityClients_sorted_plain_witness :
  Forall (fun c => is_prototype_member (or_default (c_status c) "medium") = false)
    [client_low; mkDClient "3" (Some "high") "High Client"] /\
  (List.length (priorityClients [client_low; mkDClient "3" (Some "high") "High Client"] []) <= 5)%nat /\
  Sorted claim_before (priorityClients [client_low; mkDClient "3" (Some "high") "High Client"] []).
Proof.
  assert (H : Forall (fun c => is_prototype_member (or_default (c_status c) "medium") = false)
    [client_low; mkDClient "3" (Some "high") "High Client"]) by (repeat constructor).
  split; [exact H|]. apply (priorityClients_sorted_plain _ [] H).
Defined.

(** C10.  For the clients [low] (id "1", status "low") and [toString]
    (id "2", status "toString") with no deals, the list keeps the order
    low, toString.  Reading "toString" on the object literal
    [priorityOrder] yields the inherited function, which is truthy, so the
    [|| 2] fallback is skipped; the subtraction then gives NaN, which
    [sort] reads as "equal".  The list is therefore ranked 1 then 2,
    which is not non-increasing, while the description ranks an
    unrecognised priority 2 and puts it first. *)
Theorem priorityClients_prototype_status_misordered :
  priorityClients [client_low; client_proto] [] =
    [toItem [] client_low; toItem [] client_proto] /\
  claim_rank (p_priority (toItem [] client_low)) = 1%Z /\
  claim_rank (p_priority (toItem [] client_proto)) = 2%Z /\
  priorityOf "toString" = PInherited "toString" /\
  compare (toItem [] client_low) (toItem [] client_proto) = NNaN /\
  claim_ordered (priorityClients [client_low; client_proto] []) = false.
Proof. vm_compute. repeat split. Qed.

(* ================================================================= *)
(** ** Further properties of the executor *)

(** Each handler checks its configuration before anything else: an empty
    email message (email handlers), an empty meeting name or email content
    (meeting handlers), or a missing client id (AI-summary handlers) gives
    a failed result with the validation message, and no remote call is
    made, in both versions. *)
Theorem handlers_validation_no_calls a ce env :
  (or_default (email_message (config_of a)) "" = "" ->
     run (Part000.executeEmailAutomation a ce) env =
       (Ret (mkResult false "Email message is required" None), []) /\
     run (Part001.executeEmailAutomation a ce) env =
       (Ret (mkResult false "Email message is required" None), [])) /\
  (or_default (meeting_name (config_of a)) "" = "" \/ or_default (email_content (config_of a)) "" = "" ->
     run (Part000.executeMeetingFollowUpAutomation a ce) env =
       (Ret (mkResult false "Meeting name and email content are required" None), []) /\
     run (Part001.executeMeetingFollowUpAutomation a ce) env =
       (Ret (mkResult false "Meeting name and email content are required" None), [])) /\
  (str_truthy (client_id (config_of a)) = false ->
     run (Part000.executeAIClientSummaryAutomation a) env =
       (Ret (mkResult false "Client ID is required" None), []) /\
     run (Part001.executeAIClientSummaryAutomation a) env =
       (Ret (mkResult false "Client ID is required" None), [])).
Proof.
  split; [|split].
  - intros H. unfold Part000.executeEmailAutomation, Part000.executeEmailAutomation_body,
      Part001.executeEmailAutomation, Part001.executeEmailAutomation_body.
    unfold_m. rewrite H. simpl. split; reflexivity.
  - intros H. unfold Part000.executeMeetingFollowUpAutomation, Part000.executeMeetingFollowUpAutomation_body,
      Part001.executeMeetingFollowUpAutomation, Part001.executeMeetingFollowUpAutomation_body.
    unfold_m. destruct H as [H|H]; rewrite H; simpl; [|rewrite orb_true_r]; split; reflexivity.
  - intros H. unfold Part000.executeAIClientSummaryAutomation, Part001.executeAIClientSummaryAutomation,
      executeAIClientSummaryAutomation_with, executeAIClientSummaryAutomation_with_body.
    unfold_m. rewrite H. simpl. split; reflexivity.
Qed.

(** Without a session no mail is sent: when [getSession] answers no
    session, the part_000 email and meeting handlers never invoke the
    ["send-email"] function. *)
Theorem no_session_no_send a ce env :
  session_resp env = false ->
  Forall (fun c => is_api_call c = false) (snd (run (Part000.executeEmailAutomation a ce) env)) /\
  Forall (fun c => is_api_call c = false)
    (snd (run (Part000.executeMeetingFollowUpAutomation a ce) env)).
Proof.
  intros Hs.
  unfold Part000.executeEmailAutomation, Part000.executeEmailAutomation_body,
    Part000.executeMeetingFollowUpAutomation, Part000.executeMeetingFollowUpAutomation_body,
    resolveRecipient.
  unfold_m.
  split; repeat (case_match; simpl in *; rewrite ?Hs in *; simpl in *; try congruence);
    simplify_eq; simpl; repeat constructor.
Qed.

Lemma no_session_no_send_witness :
  session_resp env_no_session = false /\
  Forall (fun c => is_api_call c = false)
    (snd (run (Part000.executeEmailAutomation (email_automation "hi") None) env_no_session)) /\
  Forall (fun c => is_api_call c = false)
    (snd (run (Part000.executeMeetingFollowUpAutomation (email_automation "hi") None) env_no_session)).
Proof. split; [reflexivity|]. apply no_session_no_send. reflexivity. Defined.

Lemma show_opt_truthy o : str_truthy o = true -> o = Some (show_opt o).
Proof. destruct o; simpl; congruence. Qed.

Ltac recip_finish :=
  repeat match goal with
  | H : (negb _ && _) = true |- _ => apply andb_true_iff in H as [? ?]
  | H : negb _ = false |- _ => apply negb_false_iff in H
  | H : negb _ = true |- _ => apply negb_true_iff in H
  end;
  first
  [ left; split; [assumption | apply show_opt_truthy; assumption]
  | right; split; [assumption|];
    destruct (client_id (config_of _)) as [c|] eqn:Hc; simpl in *; [|congruence];
    exists c; eexists; split; [reflexivity | split; [eassumption | apply show_opt_truthy; assumption]] ].

(** The recipient of a part_000 mail: when a [clientEmail] is passed, no
    client is looked up and the mail goes to that address; otherwise it
    goes to the [email] of the client row found for the configured
    [client_id].  The email subject is the configured subject, else the
    automation's name, else "Email from ClientFlowAI"; the meeting subject
    is "Follow-up: " followed by the meeting name. *)
Theorem mail_recipient a ce env :
  (forall to subj,
     In (InvokeSendEmail to subj) (snd (run (Part000.executeEmailAutomation a ce) env)) ->
     subj = or_default (or_str (email_subject (config_of a)) (name a)) "Email from ClientFlowAI" /\
     ((str_truthy ce = true /\ ce = Some to) \/
      (str_truthy ce = false /\ exists cid row, client_id (config_of a) = Some cid /\
         client_email_resp env cid = SOk row /\ cr_email row = Some to))) /\
  (forall to subj,
     In (InvokeSendEmail to subj) (snd (run (Part000.executeMeetingFollowUpAutomation a ce) env)) ->
     subj = "Follow-up: " ++ or_default (meeting_name (config_of a)) "" /\
     ((str_truthy ce = true /\ ce = Some to) \/
      (str_truthy ce = false /\ exists cid row, client_id (config_of a) = Some cid /\
         client_email_resp env cid = SOk row /\ cr_email row = Some to))) /\
  (str_truthy ce = true -> forall cid,
     ~ In (SelectClientEmail cid) (snd (run (Part000.executeEmailAutomation a ce) env)) /\
     ~ In (SelectClientEmail cid) (snd (run (Part000.executeMeetingFollowUpAutomation a ce) env))).
Proof.
  unfold Part000.executeEmailAutomation, Part000.executeEmailAutomation_body,
    Part000.executeMeetingFollowUpAutomation, Part000.executeMeetingFollowUpAutomation_body,
    resolveRecipient.
  unfold_m.
  split; [|split]; [intros to subj Hin| intros to subj Hin | intros Hce cid; split; intros Hin];
  repeat (case_match; simpl in *; try congruence); simplify_eq; simpl in *;
  repeat match goal with H : _ \/ _ |- _ => destruct H end; simplify_eq; try tauto.
  all: try (split; [reflexivity|]; recip_finish).
  all: rewrite Hce in *; simpl in *; congruence.
Qed.

(** The part_001 email and meeting handlers only simulate the mail: they
    make no remote call at all, and they succeed exactly when their
    required configuration is present (a non-empty email message; a
    non-empty meeting name and email content). *)
Theorem part001_mail_simulated a ce env :
  (exists r, run (Part001.executeEmailAutomation a ce) env = (Ret r, []) /\
     (success r = true <-> or_default (email_message (config_of a)) "" <> "")) /\
  (exists r, run (Part001.executeMeetingFollowUpAutomation a ce) env = (Ret r, []) /\
     (success r = true <->
      or_default (meeting_name (config_of a)) "" <> "" /\
      or_default (email_content (config_of a)) "" <> "")).
Proof.
  unfold Part001.executeEmailAutomation, Part001.executeEmailAutomation_body,
    Part001.executeMeetingFollowUpAutomation, Part001.executeMeetingFollowUpAutomation_body.
  unfold_m. split.
  - destruct (String.eqb_spec (or_default (email_message (config_of a)) "") "") as [E|E]; simpl.
    + eexists; split; [reflexivity|]. simpl. split; [discriminate | tauto].
    + repeat (case_match; simpl in *; try congruence); simplify_eq;
        eexists; (split; [reflexivity|]); simpl; tauto.
  - destruct (String.eqb_spec (or_default (meeting_name (config_of a)) "") "") as [E|E];
    destruct (String.eqb_spec (or_default (email_content (config_of a)) "") "") as [E'|E'];
      simpl; eexists; (split; [reflexivity|]); simpl; split; try tauto; discriminate.
Qed.

(** An enabled automation of a type other than "email", "meeting" and
    "ai-summary" runs no handler: with any handlers, the execution inserts
    the run row, marks it failed with "Unknown automation type: <type>",
    and returns that failure. *)
Theorem executeAutomation_unknown_type hs a ce env r :
  is_disabled a = false ->
  opt_eqb (action_type_of a) "email" = false ->
  opt_eqb (action_type_of a) "meeting" = false ->
  opt_eqb (action_type_of a) "ai-summary" = false ->
  insert_run_resp env = Some r ->
  run (executeAutomation_with hs a ce) env =
    (Ret (mkResult false ("Unknown automation type: " ++ show_opt (action_type_of a)) None),
     [InsertRun (or_str (automation_id a) (id a));
      UpdateRun r "failed" (Some ("Unknown automation type: " ++ show_opt (action_type_of a))) None]).
Proof.
  intros Hd He Hm Hs Hr. unfold executeAutomation_with, dispatch. rewrite Hd, He, Hm, Hs.
  unfold_m. rewrite Hr. reflexivity.
Qed.

Lemma executeAutomation_unknown_type_witness :
  let a := mkAutomation (Some "a-9") None (Some "Texts") (Some "sms") None (Some true) None None in
  is_disabled a = false /\ opt_eqb (action_type_of a) "email" = false /\
  opt_eqb (action_type_of a) "meeting" = false /\ opt_eqb (action_type_of a) "ai-summary" = false /\
  insert_run_resp env_ok = Some "run-1" /\
  run (executeAutomation_with Part000.handlers a None) env_ok =
    (Ret (mkResult false ("Unknown automation type: " ++ show_opt (action_type_of a)) None),
     [InsertRun (or_str (automation_id a) (id a));
      UpdateRun "run-1" "failed" (Some ("Unknown automation type: " ++ show_opt (action_type_of a))) None]).
Proof.
  intros a. do 5 (split; [reflexivity|]).
  apply executeAutomation_unknown_type; reflexivity.
Defined.

(** The run row receives [result_data] only for a successful AI summary:
    an update that carries result data is the update to "completed",
    without error message, of the row the insert returned, of an
    automation whose type is "ai-summary". *)
Theorem executeAutomation_result_data hs a ce env r st em rd :
  In hs versions ->
  In (UpdateRun r st em (Some rd)) (snd (run (executeAutomation_with hs a ce) env)) ->
  is_summary a = true /\ st = "completed" /\ em = None /\ insert_run_resp env = Some r.
Proof.
  intros Hin Hu. destruct (is_disabled a) eqn:Hd.
  - unfold executeAutomation_with in Hu. rewrite Hd in Hu. simpl in Hu. contradiction.
  - destruct (executeAutomation_enabled_ex hs a ce env Hin Hd)
      as (res & hcalls & H1 & _ & Ht & _ & _).
    rewrite H1 in Hu. simpl in Hu. destruct Hu as [Hu|Hu]; [discriminate|].
    apply List.in_app_or in Hu as [Hu|Hu].
    + rewrite List.Forall_forall in Ht. apply Ht in Hu. discriminate.
    + unfold final_update in Hu. destruct (insert_run_resp env) as [r'|] eqn:Hr; [|contradiction].
      destruct Hu as [Hu|[]]. injection Hu as <- Hst Hem Hrd.
      destruct (success res); simpl in *; [|discriminate].
      destruct (is_summary a); simpl in *; [|discriminate]. auto.
Qed.

Lemma executeAutomation_result_data_witness :
  In Part000.handlers versions /\
  In (UpdateRun "run-1" "completed" None (Some (RDSummary "c-1" "Ada Lovelace" "A loyal client.")))
    (snd (run (executeAutomation_with Part000.handlers summary_automation None) env_ok)) /\
  is_summary summary_automation = true /\ "completed" = "completed" /\ @None string = None /\
  insert_run_resp env_ok = Some "run-1".
Proof.
  assert (H1 : In Part000.handlers versions) by (left; reflexivity).
  assert (H2 : In (UpdateRun "run-1" "completed" None (Some (RDSummary "c-1" "Ada Lovelace" "A loyal client.")))
    (snd (run (executeAutomation_with Part000.handlers summary_automation None) env_ok)))
    by (vm_compute; right; right; right; right; right; right; left; reflexivity).
  split; [exact H1|]. split; [exact H2|].
  apply (executeAutomation_result_data _ _ _ _ _ _ _ _ H1 H2).
Defined.

Lemma getOpenAIApiKey_no_calls env : snd (getOpenAIApiKey env) = [].
Proof.
  unfold getOpenAIApiKey. unfold_m. simpl.
  destruct (openai_key env) as [s|]; simpl; [|reflexivity].
  destruct (String.eqb s ""); [reflexivity|]. destruct (String.eqb (trim s) ""); reflexivity.
Qed.

Ltac key_no_calls :=
  repeat match goal with
  | H : getOpenAIApiKey ?env = (_, ?l) |- _ =>
      let Hk := fresh "Hk" in
      pose proof (getOpenAIApiKey_no_calls env) as Hk; rewrite H in Hk; simpl in Hk; subst l
  end.

Ltac lookup_in :=
  simpl in *;
  repeat match goal with
  | H : _ \/ _ |- _ => destruct H as [H|H]
  end;
  try discriminate; try contradiction;
  match goal with
  | H : SelectClientBy _ _ = SelectClientBy _ _ |- _ => injection H as <- <-; eauto 6
  end.

(** The client lookup of the AI summary (both versions): the client is
    looked up by [client_id], and by [id] only when the first lookup
    failed with code "PGRST116" (no row); any other error ends the run
    after that single lookup with "Client not found: <message>".  When the
    fallback lookup fails too, the message reported is the one of the
    first lookup. *)
Theorem summary_client_lookup n a env cid :
  client_id (config_of a) = Some cid -> cid <> "" ->
  (forall col v,
     In (SelectClientBy col v) (snd (run (executeAIClientSummaryAutomation_with n a) env)) ->
     v = cid /\
     (col = "client_id" \/
      (col = "id" /\ exists m, client_by_resp env "client_id" cid = SErr "PGRST116" m))) /\
  (forall code m, client_by_resp env "client_id" cid = SErr code m -> code <> "PGRST116" ->
     run (executeAIClientSummaryAutomation_with n a) env =
       (Ret (mkResult false ("Client not found: " ++ or_default m "Unknown error") None),
        [SelectClientBy "client_id" cid])) /\
  (forall m code' m', client_by_resp env "client_id" cid = SErr "PGRST116" m ->
     client_by_resp env "id" cid = SErr code' m' ->
     run (executeAIClientSummaryAutomation_with n a) env =
       (Ret (mkResult false ("Client not found: " ++ or_default m "Unknown error") None),
        [SelectClientBy "client_id" cid; SelectClientBy "id" cid])).
Proof.
  intros Hcid Hne. apply String.eqb_neq in Hne.
  unfold executeAIClientSummaryAutomation_with, executeAIClientSummaryAutomation_with_body.
  split; [|split].
  - intros col v Hin. revert Hin. unfold_m. rewrite Hcid. simpl. rewrite Hne. simpl.
    destruct (client_by_resp env "client_id" cid) as [row|code m] eqn:H1; simpl.
    + repeat (case_match; simpl in *; try congruence); simplify_eq; simpl;
        key_no_calls; intros Hin; lookup_in.
    + destruct (String.eqb_spec code "PGRST116") as [->|Hc]; simpl.
      * repeat (case_match; simpl in *; try congruence); simplify_eq; simpl;
          key_no_calls; intros Hin; lookup_in.
      * intros [Hin|[]]. injection Hin as <- <-. auto.
  - intros code m H1 Hc. unfold_m. rewrite Hcid. simpl. rewrite Hne. simpl. rewrite H1. simpl.
    apply String.eqb_neq in Hc. rewrite Hc. reflexivity.
  - intros m code' m' H1 H2. unfold_m. rewrite Hcid. simpl. rewrite Hne. simpl. rewrite H1. simpl.
    rewrite H2. reflexivity.
Qed.

Lemma summary_client_lookup_witness :
  client_id (config_of summary_automation) = Some "c-1" /\ "c-1" <> "" /\
  (forall col v,
     In (SelectClientBy col v) (snd (run (executeAIClientSummaryAutomation_with 500 summary_automation) env_ok)) ->
     v = "c-1" /\
     (col = "client_id" \/
      (col = "id" /\ exists m, client_by_resp env_ok "client_id" "c-1" = SErr "PGRST116" m))) /\
  (forall code m, client_by_resp env_ok "client_id" "c-1" = SErr code m -> code <> "PGRST116" ->
     run (executeAIClientSummaryAutomation_with 500 summary_automation) env_ok =
       (Ret (mkResult false ("Client not found: " ++ or_default m "Unknown error") None),
        [SelectClientBy "client_id" "c-1"])) /\
  (forall m code' m', client_by_resp env_ok "client_id" "c-1" = SErr "PGRST116" m ->
     client_by_resp env_ok "id" "c-1" = SErr code' m' ->
     run (executeAIClientSummaryAutomation_with 500 summary_automation) env_ok =
       (Ret (mkResult false ("Client not found: " ++ or_default m "Unknown error") None),
        [SelectClientBy "client_id" "c-1"; SelectClientBy "id" "c-1"])).
Proof.
  assert (H : "c-1" <> "") by discriminate.
  split; [reflexivity|]. split; [exact H|].
  exact (summary_client_lookup 500 summary_automation env_ok "c-1" eq_refl H).
Defined.

(* ================================================================= *)
(** ** Further properties of openai-config.ts *)

(** [getOpenAIApiKey] makes no remote call; the key it returns is the
    configured key trimmed, never empty (so the summary handler's check
    for an empty key can never fire); and [isOpenAIConfigured] answers
    true exactly when [getOpenAIApiKey] returns a key. *)
Theorem getOpenAIApiKey_spec env :
  snd (run getOpenAIApiKey env) = [] /\
  (forall k, fst (run getOpenAIApiKey env) = Ret k ->
     exists s, openai_key env = Some s /\ k = trim s /\ k <> "") /\
  (forall e, fst (run getOpenAIApiKey env) = Throw e -> In (err_message e) key_errors) /\
  (fst (run isOpenAIConfigured env) = Ret true <->
   exists k, fst (run getOpenAIApiKey env) = Ret k).
Proof.
  split; [apply getOpenAIApiKey_no_calls|].
  unfold isOpenAIConfigured, getOpenAIApiKey, key_errors. unfold_m. simpl.
  destruct (openai_key env) as [s|]; simpl.
  - destruct (String.eqb_spec s "") as [E|E]; simpl.
    + split; [discriminate|]. split; [intros e He; injection He as <-; simpl; auto|].
      split; [discriminate | intros [k Hk]; discriminate].
    + destruct (String.eqb_spec (trim s) "") as [E'|E']; simpl.
      * split; [discriminate|]. split; [intros e He; injection He as <-; simpl; auto|].
        split; [discriminate | intros [k Hk]; discriminate].
      * split; [intros k Hk; injection Hk as <-; eauto|].
        split; [discriminate|]. split; [eauto | reflexivity].
  - split; [discriminate|]. split; [intros e He; injection He as <-; simpl; auto|].
    split; [discriminate | intros [k Hk]; discriminate].
Qed.

Lemma analyzeDocument_throw JSON_parse kind env e :
  fst (analyzeDocument JSON_parse kind env) = Throw e ->
  exists m, err_message e = "Failed to analyze " ++ kind ++ ": " ++ m.
Proof.
  unfold analyzeDocument, try_catch.
  match goal with |- context [match ?b env with _ => _ end] => destruct (b env) as [[r|e'] t] end;
    simpl; [discriminate|].
  unfold throw. intros He. injection He as <-. simpl. eauto.
Qed.

Lemma analyze_with_key_throw JSON_parse kind apiKey env e :
  fst ((_ ← (if str_truthy apiKey then mret (show_opt apiKey) else getOpenAIApiKey);
        analyzeDocument JSON_parse kind) env) = Throw e ->
  (str_truthy apiKey = false /\ In (err_message e) key_errors) \/
  exists m, err_message e = "Failed to analyze " ++ kind ++ ": " ++ m.
Proof.
  unfold mbind, M_bind.
  destruct (str_truthy apiKey) eqn:Hk.
  - unfold mret, M_ret. simpl.
    destruct (analyzeDocument JSON_parse kind env) as [o t] eqn:Ha. simpl. intros ->.
    right. apply (analyzeDocument_throw JSON_parse kind env). rewrite Ha. reflexivity.
  - destruct (getOpenAIApiKey env) as [[k|e'] t] eqn:Hg; simpl.
    + destruct (analyzeDocument JSON_parse kind env) as [o t2] eqn:Ha. simpl. intros ->.
      right. apply (analyzeDocument_throw JSON_parse kind env). rewrite Ha. reflexivity.
    + intros He. injection He as <-. left. split; [reflexivity|].
      destruct (getOpenAIApiKey_spec env) as (_ & _ & Hth & _).
      apply Hth. unfold run. rewrite Hg. reflexivity.
Qed.

Lemma analyze_with_file_throw JSON_parse kind reader apiKey env e :
  fst ((_ ← (if str_truthy apiKey then mret (show_opt apiKey) else getOpenAIApiKey);
        _ ← lift (fileToBase64 reader);
        analyzeDocument JSON_parse kind) env) = Throw e ->
  (str_truthy apiKey = false /\ In (err_message e) key_errors) \/ reader = Throw e \/
  exists m, err_message e = "Failed to analyze " ++ kind ++ ": " ++ m.
Proof.
  unfold mbind, M_bind, lift, fileToBase64, mret, M_ret.
  destruct (str_truthy apiKey) eqn:Hk;
    [|destruct (getOpenAIApiKey env) as [[k|e'] t] eqn:Hg];
    simpl; [destruct reader as [res|e0]; simpl .. |].
  - destruct (analyzeDocument JSON_parse kind env) as [o t] eqn:Ha. simpl. intros ->.
    right. right. apply (analyzeDocument_throw JSON_parse kind env). rewrite Ha. reflexivity.
  - intros He. injection He as ->. right. left. reflexivity.
  - destruct (analyzeDocument JSON_parse kind env) as [o t2] eqn:Ha. simpl. intros ->.
    right. right. apply (analyzeDocument_throw JSON_parse kind env). rewrite Ha. reflexivity.
  - intros He. injection He as ->. right. left. reflexivity.
  - intros He. injection He as <-. left. split; [reflexivity|].
    destruct (getOpenAIApiKey_spec env) as (_ & _ & Hth & _).
    apply Hth. unfold run. rewrite Hg. reflexivity.
Qed.

(** The errors of the three analysis functions.  The key was not passed
    and [getOpenAIApiKey] failed (one of its two messages); or, for the
    image and PDF analyses, the [FileReader] failed and [fileToBase64]'s
    rejection is passed on as is; or the message is "Failed to analyze
    image: ", "Failed to analyze PDF: " or "Failed to analyze PDF text: "
    followed by the original message.  When the file cannot be read, the
    image and PDF analyses make no remote call: the model is not called. *)
Theorem analysis_errors JSON_parse reader apiKey text env e :
  (fst (run (analyzeImageWithOpenAI JSON_parse reader apiKey) env) = Throw e ->
   (str_truthy apiKey = false /\ In (err_message e) key_errors) \/ reader = Throw e \/
   exists m, err_message e = "Failed to analyze image: " ++ m) /\
  (fst (run (analyzePDFWithOpenAI JSON_parse reader apiKey) env) = Throw e ->
   (str_truthy apiKey = false /\ In (err_message e) key_errors) \/ reader = Throw e \/
   exists m, err_message e = "Failed to analyze PDF: " ++ m) /\
  (fst (run (analyzePDFTextWithOpenAI JSON_parse text apiKey) env) = Throw e ->
   (str_truthy apiKey = false /\ In (err_message e) key_errors) \/
   exists m, err_message e = "Failed to analyze PDF text: " ++ m) /\
  (forall e0, reader = Throw e0 ->
   snd (run (analyzeImageWithOpenAI JSON_parse reader apiKey) env) = [] /\
   snd (run (analyzePDFWithOpenAI JSON_parse reader apiKey) env) = []).
Proof.
  split; [|split; [|split]].
  - apply analyze_with_file_throw.
  - apply analyze_with_file_throw.
  - apply analyze_with_key_throw.
  - intros e0 ->. unfold run, analyzeImageWithOpenAI, analyzePDFWithOpenAI.
    unfold mbind, M_bind, lift, fileToBase64. simpl.
    destruct (str_truthy apiKey).
    + unfold mret, M_ret. simpl. split; reflexivity.
    + pose proof (getOpenAIApiKey_no_calls env) as Hn.
      destruct (getOpenAIApiKey env) as [[k|e'] t]; simpl in *; subst t; split; reflexivity.
Qed.

(** Like the image and PDF analyses, the text analysis
    [analyzePDFTextWithOpenAI] returns a priority in {"low", "medium",
    "high"} and a sentiment in {"low", "mid", "high"}, whatever the model
    answers. *)
Theorem analyzePDFText_normalized JSON_parse text apiKey env r :
  fst (run (analyzePDFTextWithOpenAI JSON_parse text apiKey) env) = Ret r ->
  normalized_result r.
Proof. apply analyze_with_key_normalized. Qed.

Lemma analyzePDFText_normalized_witness :
  fst (run (analyzePDFTextWithOpenAI
              (fun _ => Ret (JObj [("priority", JStr "Low"); ("sentiment", JStr " HIGH")]))
              "Quarterly contract renewal" None) env_ok) =
    Ret (mkAnalysis "low" (JNum 0) "high" (JStr "")) /\
  normalized_result (mkAnalysis "low" (JNum 0) "high" (JStr "")).
Proof.
  assert (H : fst (run (analyzePDFTextWithOpenAI
              (fun _ => Ret (JObj [("priority", JStr "Low"); ("sentiment", JStr " HIGH")]))
              "Quarterly contract renewal" None) env_ok) =
    Ret (mkAnalysis "low" (JNum 0) "high" (JStr ""))) by (vm_compute; reflexivity).
  split; [exact H|]. exact (analyzePDFText_normalized _ _ _ _ _ H).
Defined.

(** The normalisers are idempotent: a normalised priority or sentiment
    normalises to itself. *)
Theorem normalizers_idempotent s :
  normalizePriority (normalizePriority s) = normalizePriority s /\
  normalizeSentiment (normalizeSentiment s) = normalizeSentiment s.
Proof.
  split.
  - destruct (normalizePriority_in s) as [E|[E|[E|[]]]]; rewrite <- E; reflexivity.
  - destruct (normalizeSentiment_in s) as [E|[E|[E|[]]]]; rewrite <- E; reflexivity.
Qed.

Lemma append_cons c s t : String c s ++ t = String c (s ++ t).
Proof. reflexivity. Qed.

Lemma has_comma_app s t : has_comma (s ++ t) = has_comma s || has_comma t.
Proof. induction s as [|c s IH]; simpl; [reflexivity|]. rewrite IH. apply orb_assoc. Qed.

Lemma split_comma_cons s : exists p ps, split_comma s = p :: ps.
Proof.
  induction s as [|c s [p [ps IH]]]; simpl; [eauto|]. rewrite IH.
  destruct (Ascii.eqb c ","%char); eauto.
Qed.

Lemma split_comma_app s t :
  has_comma s = false ->
  forall p ps, split_comma t = p :: ps -> split_comma (s ++ t) = (s ++ p) :: ps.
Proof.
  induction s as [|c s IH]; intros Hs p ps Ht; simpl in *; [exact Ht|].
  apply orb_false_iff in Hs as [Hc Hs]. rewrite (IH Hs p ps Ht), Hc. reflexivity.
Qed.

Lemma append_empty_r s : s ++ "" = s.
Proof. induction s as [|c s IH]; [reflexivity|]. rewrite append_cons, IH. reflexivity. Qed.

Lemma split_comma_none s : has_comma s = false -> split_comma s = [s].
Proof.
  intros H. pose proof (split_comma_app s "" H "" [] eq_refl) as E.
  rewrite !append_empty_r in E. exact E.
Qed.

(** [fileToBase64] returns the payload of the data URL: for
    "data:<mime>;base64,<payload>" with no comma in the MIME type nor in
    the payload (the base64 alphabet has none) it is exactly the payload;
    a string without a comma is returned unchanged. *)
Theorem fileToBase64_data_url mime payload :
  (has_comma mime = false -> has_comma payload = false ->
   fileToBase64_onload ("data:" ++ mime ++ ";base64," ++ payload) = payload) /\
  (has_comma payload = false -> fileToBase64_onload payload = payload).
Proof.
  split.
  - intros Hm Hp.
    assert (E : split_comma ("data:" ++ mime ++ ";base64," ++ payload) =
                ("data:" ++ mime ++ ";base64") :: [payload]).
    { change ("data:" ++ mime ++ ";base64," ++ payload) with
             ("data:" ++ (mime ++ (";base64" ++ ("," ++ payload)))).
      rewrite (split_comma_app "data:" _ eq_refl ("" ++ mime ++ ";base64") [payload]); [reflexivity|].
      rewrite (split_comma_app mime _ Hm (";base64") [payload]); [reflexivity|].
      rewrite (split_comma_app ";base64" _ eq_refl "" [payload]); [reflexivity|].
      simpl. change ("" ++ payload) with payload. rewrite (split_comma_none payload Hp). reflexivity. }
    unfold fileToBase64_onload. rewrite E, has_comma_app, has_comma_app, Hm. reflexivity.
  - intros Hp. unfold fileToBase64_onload. rewrite Hp. reflexivity.
Qed.

(* ================================================================= *)
(** ** Properties of useAutomations.tsx *)

Lemma map_outcome_Forall2 {A B} (f : A -> Outcome B) (P : A -> B -> Prop) l out :
  (forall x y, f x = Ret y -> P x y) ->
  map_outcome f l = Ret out -> Forall2 P l out.
Proof.
  intros Hf. revert out. induction l as [|x l IH]; intros out H; simpl in H.
  - injection H as <-. constructor.
  - destruct (f x) as [y|e] eqn:Hx; [|discriminate].
    destruct (map_outcome f l) as [ys|e] eqn:Hl; [|discriminate].
    injection H as <-. constructor; auto.
Qed.

Lemma map_outcome_throw {A B} (f : A -> Outcome B) l x e :
  In x l -> f x = Throw e -> exists e', map_outcome f l = Throw e'.
Proof.
  induction l as [|y l IH]; simpl; [tauto|]. intros [->|Hin] Hx.
  - rewrite Hx. eauto.
  - destruct (f y); [|eauto]. destruct (IH Hin Hx) as [e' ->]. eauto.
Qed.

Lemma js_or_obj_truthy c fs : truthy (js_or c (JObj fs)) = true.
Proof. unfold js_or. destruct (truthy c) eqn:E; [exact E | reflexivity]. Qed.

(** The automations list: every fetched row is mapped with the aliases
    [id] = [automation_id], [action_type] = [action_type_type] and
    [is_active] = [is_enabled]; its [config] is the parsed string (an
    empty string parsed as "{}") or, when not a string, the value itself
    if truthy and [{}] otherwise, so never null; every other column is
    unchanged.  A single config string that fails to parse makes the whole
    query fail. *)
Theorem useAutomations_mapping JSON_parse rows out :
  useAutomations_queryFn JSON_parse (LData (Some rows)) = Ret out ->
  Forall2 (fun row m =>
    get m "id" = get row "automation_id" /\
    get m "action_type" = get row "action_type_type" /\
    get m "is_active" = get row "is_enabled" /\
    (match get row "config" with
     | JStr s => JSON_parse (if String.eqb s "" then "{}" else s) = Ret (get m "config")
     | c => get m "config" = js_or c (JObj []) /\ truthy (get m "config") = true
     end) /\
    (forall k, k <> "id" -> k <> "action_type" -> k <> "is_active" -> k <> "config" ->
       m !! k = row !! k)) rows out.
Proof.
  unfold useAutomations_queryFn. apply map_outcome_Forall2.
  intros row m. unfold mapAutomation.
  destruct (get row "config") as [| |b|z|s|l|fs] eqn:Hc;
    [..| destruct (JSON_parse (if String.eqb s "" then "{}" else s)) eqn:Hp | |];
    intros H; try discriminate; injection H as <-;
    repeat first [rewrite get_insert_eq | rewrite get_insert_ne by discriminate];
    (split; [reflexivity|]); (split; [reflexivity|]); (split; [reflexivity|]);
    (split; [first [reflexivity | split; [reflexivity | apply js_or_obj_truthy]] |]);
    intros k H1 H2 H3 H4; rewrite !lookup_insert_ne by congruence; reflexivity.
Qed.

(** A config string that fails to parse fails the whole automations query:
    the list is not returned with that row left out. *)
Theorem useAutomations_bad_config JSON_parse rows row s e :
  In row rows -> get row "config" = JStr s ->
  JSON_parse (if String.eqb s "" then "{}" else s) = Throw e ->
  exists e', useAutomations_queryFn JSON_parse (LData (Some rows)) = Throw e'.
Proof.
  intros Hin Hc Hp. unfold useAutomations_queryFn.
  apply (map_outcome_throw _ _ row e Hin). unfold mapAutomation. rewrite Hc, Hp. reflexivity.
Qed.

Lemma get_delete_ne (m : gmap string jsval) k k' : k <> k' -> get (delete k m) k' = get m k'.
Proof. intros H. unfold get. rewrite lookup_delete_ne by exact H. reflexivity. Qed.

Ltac ins_inv H :=
  repeat match type of H with
  | <[_:=_]> _ !! _ = Some _ => apply lookup_insert_Some in H as [[<- <-]|[_ H]]
  | {[_ := _]} !! _ = Some _ => apply lookup_singleton_Some in H as [<- <-]
  | ∅ !! _ = Some _ => rewrite lookup_empty in H; discriminate H
  end.

(** The row [useCreateAutomation] inserts: nothing is inserted without a
    signed-in user; the stored [is_enabled] is never undefined: it is the
    given [is_enabled] when defined, else [is_active], and [true] when both
    are missing; [user_id] is stored as null, [config] is never falsy,
    [created_at] and [updated_at] are the clock readings, and only the nine columns of the
    mapping are written. *)
Theorem useCreateAutomation_row userId a t1 t2 :
  (str_truthy userId = false ->
   useCreateAutomation_request userId a t1 t2 =
     Throw (mkError "User must be authenticated to create an automation")) /\
  (forall row, useCreateAutomation_request userId a t1 t2 = Ret row ->
     defined (get row "is_enabled") = true /\
     (defined (get a "is_enabled") = true -> get row "is_enabled" = get a "is_enabled") /\
     (get a "is_enabled" = JUndef -> defined (get a "is_active") = true ->
        get row "is_enabled" = get a "is_active") /\
     (get a "is_enabled" = JUndef -> get a "is_active" = JUndef -> get row "is_enabled" = JBool true) /\
     get row "user_id" = JNull /\ truthy (get row "config") = true /\
     get row "created_at" = JStr t1 /\ get row "updated_at" = JStr t2 /\
     (forall k v, row !! k = Some v ->
        In k ["name"; "description"; "trigger_type"; "action_type_type"; "is_enabled";
              "config"; "user_id"; "created_at"; "updated_at"])).
Proof.
  unfold useCreateAutomation_request. split.
  - intros H. rewrite H. reflexivity.
  - intros row H. destruct (negb (str_truthy userId)); [discriminate|].
    injection H as <-. unfold dbAutomation.
    repeat first [rewrite get_insert_eq | rewrite get_insert_ne by discriminate].
    repeat split.
    + destruct (defined (get a "is_enabled")) eqn:E1; [exact E1|].
      destruct (defined (get a "is_active")) eqn:E2; [exact E2|reflexivity].
    + intros ->. reflexivity.
    + intros -> ->. reflexivity.
    + intros -> ->. reflexivity.
    + apply js_or_obj_truthy.
    + intros k v Hk. ins_inv Hk; simpl; tauto.
Qed.

(** The update body of [useUpdateAutomation]: no request without an
    automation id ([automation_id], else [id]); otherwise the row is
    filtered on that id and the body always sets [updated_at], writes only
    [name], [description], [action_type_type] and [is_enabled] besides it
    (never [config], [trigger_type], [user_id] or an id), never writes an
    undefined value, and takes [is_enabled] from [is_enabled], else from
    [is_active]. *)
Theorem useUpdateAutomation_body input nowIso :
  (truthy (js_or (get input "automation_id") (get input "id")) = false ->
   useUpdateAutomation_request input nowIso = Throw (mkError "Automation ID is required")) /\
  (forall t d, useUpdateAutomation_request input nowIso = Ret (t, d) ->
     t = js_or (get input "automation_id") (get input "id") /\ truthy t = true /\
     d !! "updated_at" = Some (JStr nowIso) /\
     (forall k v, d !! k = Some v ->
        In k ["updated_at"; "name"; "description"; "action_type_type"; "is_enabled"] /\
        defined v = true) /\
     (defined (get input "is_enabled") = true -> d !! "is_enabled" = Some (get input "is_enabled")) /\
     (get input "is_enabled" = JUndef -> defined (get input "is_active") = true ->
        d !! "is_enabled" = Some (get input "is_active"))).
Proof.
  unfold useUpdateAutomation_request.
  rewrite !(get_delete_ne _ "automation_id"), !(get_delete_ne _ "id") by discriminate.
  destruct (truthy (js_or (get input "automation_id") (get input "id"))) eqn:Ht; simpl.
  - split; [discriminate|]. intros t d H. injection H as <- <-.
    destruct (defined (get input "name")) eqn:En;
    destruct (defined (get input "description")) eqn:Ed;
    destruct (defined (get input "action_type_type")) eqn:Ea1;
    try destruct (defined (get input "action_type")) eqn:Ea2;
    destruct (defined (get input "is_enabled")) eqn:Ei1;
    try destruct (defined (get input "is_active")) eqn:Ei2;
    (split; [reflexivity|]); (split; [exact Ht|]);
    (split; [rewrite ?lookup_insert_ne by discriminate; apply lookup_singleton_eq|]);
    (split; [intros k v Hk; ins_inv Hk; simpl; auto 10|]);
    (split; [intros H; try discriminate; rewrite lookup_insert_eq; reflexivity|]);
    intros H1 H2; rewrite ?H1 in *; simpl in *; try discriminate;
    rewrite lookup_insert_eq; reflexivity.
  - split; [reflexivity|]. intros t d H. discriminate.
Qed.

(** Toggling an automation on the Automations page sends exactly
    [{ updated_at, is_enabled: !currentValue }] for the row with that id. *)
Theorem toggleAutomation_body id currentValue nowIso :
  id <> "" ->
  toggleAutomation id currentValue nowIso =
    Ret (JStr id, <["is_enabled" := JBool (negb currentValue)]> {[ "updated_at" := JStr nowIso ]}).
Proof.
  intros Hid. destruct id as [|c s]; [congruence|]. reflexivity.
Qed.

Lemma assoc_set_eq k v fs : assoc k fs <> JUndef -> assoc k (assoc_set k v fs) = v.
Proof.
  induction fs as [|[k' v'] r IH]; simpl; [congruence|].
  destruct (String.eqb k k') eqn:E; simpl; rewrite E; auto.
Qed.

Lemma assoc_set_ne k k2 v fs : k <> k2 -> assoc k2 (assoc_set k v fs) = assoc k2 fs.
Proof.
  intros Hne. induction fs as [|[k' v'] r IH]; simpl; [reflexivity|].
  destruct (String.eqb k k') eqn:E; simpl.
  - apply String.eqb_eq in E as ->.
    destruct (String.eqb k2 k') eqn:E2; [apply String.eqb_eq in E2; congruence|reflexivity].
  - rewrite IH. reflexivity.
Qed.

(** The run queries: neither hook queries without an automation id and a
    user; the latest run is null on a PGRST116 error or an empty answer,
    any other error is thrown, and an answer is never turned into an error:
    a [result_data] string that parses replaces the field and leaves the
    other fields as they are, one that does not parse leaves the run
    unchanged. *)
Theorem automationRuns_queries JSON_parse aid uid resp lresp :
  ((str_truthy aid = false \/ str_truthy uid = false) ->
   useLatestAutomationRun_queryFn JSON_parse aid uid resp = ([], Ret JNull) /\
   useAutomationRuns_queryFn aid uid lresp = ([], Ret [])) /\
  (forall m, latestRun_of JSON_parse (RunsError "PGRST116" m) = Ret JNull) /\
  (forall c m, c <> "PGRST116" -> latestRun_of JSON_parse (RunsError c m) = Throw (mkError m)) /\
  latestRun_of JSON_parse (RunsData (JArr [])) = Ret JNull /\
  (forall d e, latestRun_of JSON_parse (RunsData d) <> Throw e) /\
  (forall fs rest s, assoc "result_data" fs = JStr s -> s <> "" ->
     (forall v, JSON_parse s = Ret v ->
        exists fs', latestRun_of JSON_parse (RunsData (JArr (JObj fs :: rest))) = Ret (JObj fs') /\
          assoc "result_data" fs' = v /\
          (forall k, k <> "result_data" -> assoc k fs' = assoc k fs)) /\
     (forall e, JSON_parse s = Throw e ->
        latestRun_of JSON_parse (RunsData (JArr (JObj fs :: rest))) = Ret (JObj fs))).
Proof.
  split; [|split; [|split; [|split; [|split]]]].
  - intros [H|H]; unfold useLatestAutomationRun_queryFn, useAutomationRuns_queryFn;
      rewrite H; simpl; [|rewrite orb_true_r]; split; reflexivity.
  - intros m. reflexivity.
  - intros c m Hc. simpl. destruct (String.eqb c "PGRST116") eqn:E; [|reflexivity].
    apply String.eqb_eq in E. contradiction.
  - reflexivity.
  - intros d e. unfold latestRun_of.
    repeat (case_match; simpl in *; try congruence).
  - intros fs rest s Hr Hs. unfold latestRun_of. simpl.
    rewrite Hr. destruct (String.eqb s "") eqn:E; [apply String.eqb_eq in E; contradiction|].
    split.
    + intros v Hv. rewrite Hv. eexists. split; [reflexivity|]. split.
      * apply assoc_set_eq. rewrite Hr. discriminate.
      * intros k Hk. apply assoc_set_ne. congruence.
    + intros e He. rewrite He. reflexivity.
Qed.

Lemma useAutomations_mapping_witness :
  exists out, useAutomations_queryFn parse_braces (LData (Some sample_automation_rows)) = Ret out /\
    List.length out = 2.
Proof.
  assert (H : useAutomations_queryFn parse_braces (LData (Some sample_automation_rows)) =
              Ret (match useAutomations_queryFn parse_braces (LData (Some sample_automation_rows)) with
                   | Ret o => o | Throw _ => [] end)) by (vm_compute; reflexivity).
  eexists. split; [exact H|].
  pose proof (Forall2_length _ _ _ (useAutomations_mapping _ _ _ H)) as HL.
  rewrite <- HL. reflexivity.
Defined.

Lemma useAutomations_bad_config_witness :
  exists e', useAutomations_queryFn parse_braces
               (LData (Some (sample_automation_rows ++ [sample_bad_config_row])%list)) = Throw e'.
Proof.
  apply (useAutomations_bad_config parse_braces _ sample_bad_config_row "not json"
           (mkError "Unexpected token")).
  - simpl. right. right. left. reflexivity.
  - vm_compute. reflexivity.
  - vm_compute. reflexivity.
Defined.

Lemma toggleAutomation_body_witness :
  "a1" <> "" /\
  toggleAutomation "a1" true "2026-01-01T00:00:00.000Z" =
    Ret (JStr "a1", <["is_enabled" := JBool false]> {[ "updated_at" := JStr "2026-01-01T00:00:00.000Z" ]}).
Proof. split; [discriminate | apply (toggleAutomation_body "a1" true); discriminate]. Defined.

(* ================================================================= *)
(** ** Properties of the deal and client hooks *)

(** Every deal write is scoped to the signed-in user: without one each hook
    throws "User not authenticated" before any request; otherwise the
    inserted row carries the user's id (whatever [user_id] the caller
    passed), and updates and deletes filter on it.  The update body is the
    input without its [id]; the inserted row is the input with only
    [user_id] replaced. *)
Theorem deal_writes_scoped userId deal input id :
  (str_truthy userId = false ->
   useCreateDeal_request userId deal = Throw (mkError "User not authenticated") /\
   useUpdateDeal_request userId input = Throw (mkError "User not authenticated") /\
   useDeleteDeal_request userId id = Throw (mkError "User not authenticated")) /\
  (forall r, useCreateDeal_request userId deal = Ret r \/ useUpdateDeal_request userId input = Ret r \/
             useDeleteDeal_request userId id = Ret r ->
     exists u, userId = Some u /\ u <> "" /\ dealReq_user r = JStr u) /\
  (forall i u body, useUpdateDeal_request userId input = Ret (DealUpdate i u body) ->
     i = get input "id" /\ body !! "id" = None /\ (forall k, k <> "id" -> body !! k = input !! k)) /\
  (forall row, useCreateDeal_request userId deal = Ret (DealInsert row) ->
     forall k, k <> "user_id" -> row !! k = deal !! k).
Proof.
  unfold useCreateDeal_request, useUpdateDeal_request, useDeleteDeal_request.
  destruct userId as [u|]; simpl;
    [destruct (String.eqb u "") eqn:Eu; simpl|]; (split; [intros H; try discriminate; auto|]).
  - repeat split; intros; repeat match goal with H : _ \/ _ |- _ => destruct H end; discriminate.
  - apply String.eqb_neq in Eu. split; [|split].
    + intros r [H|[H|H]]; injection H as <-; exists u; (split; [reflexivity|]); split; auto.
      simpl. apply get_insert_eq.
    + intros i u' body H. injection H as <- <- <-. split; [reflexivity|]. split.
      * apply lookup_delete_eq.
      * intros k Hk. apply lookup_delete_ne. congruence.
    + intros row H k Hk. injection H as <-. apply lookup_insert_ne. congruence.
  - repeat split; intros; repeat match goal with H : _ \/ _ |- _ => destruct H end; discriminate.
Qed.

(** The client writes: [useCreateClient] throws without a signed-in user;
    otherwise it inserts the given fields with [user_id] set to the user's
    id and [created_at], [updated_at] and [last_contact] set to the clock,
    whatever the caller passed for them.  [useUpdateClient] checks no user:
    it filters on the given [id] only, drops [id] from the body, sets
    [updated_at], and passes every other field through, [user_id]
    included. *)
Theorem client_writes userId client t1 t2 t3 input nowIso :
  (str_truthy userId = false ->
   useCreateClient_request userId client t1 t2 t3 =
     Throw (mkError "User must be authenticated to create a client")) /\
  (forall row, useCreateClient_request userId client t1 t2 t3 = Ret row ->
     exists u, userId = Some u /\ u <> "" /\
     row !! "user_id" = Some (JStr u) /\ row !! "created_at" = Some (JStr t1) /\
     row !! "updated_at" = Some (JStr t2) /\ row !! "last_contact" = Some (JStr t3) /\
     (forall k, k <> "user_id" -> k <> "created_at" -> k <> "updated_at" -> k <> "last_contact" ->
        row !! k = client !! k)) /\
  (forall i body, useUpdateClient_request input nowIso = (i, body) ->
     i = get input "id" /\ body !! "id" = None /\ body !! "updated_at" = Some (JStr nowIso) /\
     (forall k, k <> "id" -> k <> "updated_at" -> body !! k = input !! k)).
Proof.
  split; [|split].
  - intros H. unfold useCreateClient_request. rewrite H. reflexivity.
  - intros row H. unfold useCreateClient_request in H.
    destruct userId as [u|]; simpl in H; [|discriminate].
    destruct (String.eqb u "") eqn:Eu; simpl in H; [discriminate|].
    apply String.eqb_neq in Eu. injection H as <-. exists u. do 2 (split; [auto|]).
    repeat split; [rewrite !lookup_insert_ne by discriminate; apply lookup_insert_eq
                  | rewrite !lookup_insert_ne by discriminate; apply lookup_insert_eq
                  | rewrite !lookup_insert_ne by discriminate; apply lookup_insert_eq
                  | apply lookup_insert_eq |].
    intros k H1 H2 H3 H4. rewrite !lookup_insert_ne by congruence. reflexivity.
  - intros i body H. unfold useUpdateClient_request in H. injection H as <- <-.
    split; [reflexivity|]. split; [|split].
    + rewrite lookup_insert_ne by discriminate. apply lookup_delete_eq.
    + apply lookup_insert_eq.
    + intros k H1 H2. rewrite lookup_insert_ne, lookup_delete_ne by congruence. reflexivity.
Qed.

(* ================================================================= *)
(** ** Properties of the Pipeline page and the dashboard *)

Lemma filter_eqb_length_split (deals : list DealRow) :
  column_total (pipeline_stages deals) +
  List.length (List.filter (fun d => negb (existsb (String.eqb (dr_stage d)) stageConfig)) deals)
  = List.length deals.
Proof.
  unfold column_total, pipeline_stages, stageConfig. simpl.
  induction deals as [|[id st ca dl] r IH]; simpl; [reflexivity|].
  destruct (String.eqb_spec st "New") as [->|H1]; simpl; [lia|].
  destruct (String.eqb_spec st "Contacted") as [->|H2]; simpl; [lia|].
  destruct (String.eqb_spec st "Follow-up") as [->|H3]; simpl; [lia|].
  destruct (String.eqb_spec st "Negotiating") as [->|H4]; simpl; [lia|].
  destruct (String.eqb_spec st "Closed") as [->|H5]; simpl; lia.
Qed.

(** The Pipeline columns: a deal is in the column of its stage and in no
    other, and a deal whose stage is not one of the five [stageConfig] ids
    (a lower-case "closed" or "won", say) is shown in no column; so the
    column sizes and the deals left out add up to all deals. *)
Theorem pipeline_columns deals :
  column_total (pipeline_stages deals) +
  List.length (List.filter (fun d => negb (existsb (String.eqb (dr_stage d)) stageConfig)) deals)
  = List.length deals /\
  (forall d sid col, In d deals -> In (sid, col) (pipeline_stages deals) ->
     (In d col <-> dr_stage d = sid)) /\
  (forall d, In d deals -> ~ In (dr_stage d) stageConfig ->
     forall sid col, In (sid, col) (pipeline_stages deals) -> ~ In d col).
Proof.
  split; [apply filter_eqb_length_split|].
  assert (Hcol : forall d sid col, In d deals -> In (sid, col) (pipeline_stages deals) ->
                 (In d col <-> dr_stage d = sid)).
  { intros d sid col Hd Hc. unfold pipeline_stages in Hc.
    apply List.in_map_iff in Hc as [sid' [Heq _]]. injection Heq as <- <-.
    rewrite List.filter_In, String.eqb_eq. tauto. }
  split; [exact Hcol|].
  intros d Hd Hn sid col Hc Hin. apply (Hcol d sid col Hd Hc) in Hin.
  apply Hn. unfold pipeline_stages in Hc.
  apply List.in_map_iff in Hc as [sid' [Heq Hs]]. injection Heq as <- _. congruence.
Qed.

(** [handleDrop] composed with [useUpdateDeal]: a drop only updates when
    the dragged id is non-empty and names a deal that is in another stage;
    the update then writes only [stage], on that deal and the signed-in
    user.  A drop without an id, of an unknown id, or on the column the
    deal is already in, makes no request. *)
Theorem handleDrop_update deals dealId target userId :
  (forall input, handleDrop deals dealId target = Some input ->
     dealId <> "" /\
     (exists d, In d deals /\ dr_id d = dealId /\ dr_stage d <> target) /\
     (str_truthy userId = true ->
      useUpdateDeal_request userId input =
        Ret (DealUpdate (JStr dealId) (show_opt userId) {[ "stage" := JStr target ]}))) /\
  (dealId = "" \/ (forall d, In d deals -> dr_id d = dealId -> dr_stage d = target) ->
   handleDrop deals dealId target = None).
Proof.
  unfold handleDrop. split.
  - intros input H.
    destruct (String.eqb_spec dealId "") as [_|Hne]; [discriminate|].
    destruct (List.find (fun d => String.eqb (dr_id d) dealId) deals) as [d|] eqn:Hf; [|discriminate].
    destruct (String.eqb_spec (dr_stage d) target) as [_|Hst]; [discriminate|].
    injection H as <-. split; [exact Hne|]. split.
    + apply List.find_some in Hf as [Hin Hid]. apply String.eqb_eq in Hid. eauto.
    + intros Hu. unfold useUpdateDeal_request. rewrite Hu. simpl.
      rewrite delete_insert_ne by discriminate. rewrite delete_singleton.
      reflexivity.
  - intros [->|Hall]; [reflexivity|].
    destruct (String.eqb dealId ""); [reflexivity|].
    destruct (List.find (fun d => String.eqb (dr_id d) dealId) deals) as [d|] eqn:Hf; [|reflexivity].
    apply List.find_some in Hf as [Hin Hid]. apply String.eqb_eq in Hid.
    rewrite (Hall d Hin Hid), String.eqb_refl. reflexivity.
Qed.

Lemma omap_length_le {A B} (f : A -> option B) (l : list A) :
  (List.length (omap f l) <= List.length l)%nat.
Proof.
  induction l as [|x l IH]; [simpl; lia|]. cbn. destruct (f x); cbn; fold (omap f l); lia.
Qed.

Lemma remove_dups_length_le (l : list string) :
  (List.length (remove_dups l) <= List.length l)%nat.
Proof. induction l as [|x l IH]; simpl; [lia|]. case_decide; simpl; lia. Qed.

(** The "Clients in Follow-up" figure of the dashboard is the number of
    distinct client ids among the deals in the "Follow-up" stage, taking
    [client_id] when truthy and the embedded client's id otherwise; deals
    with neither count for nothing, several deals of one client count once,
    so the figure never exceeds the number of follow-up deals. *)
Theorem dashboard_followUp deals :
  (clientsInFollowUp deals <= List.length (followUpDeals deals))%nat /\
  NoDup (remove_dups (followUpClientIds deals)) /\
  (forall id, In id (remove_dups (followUpClientIds deals)) <->
     exists d, In d deals /\ dr_stage d = "Follow-up" /\
       or_str (d_client_id (dr_deal d)) (d_clients_id (dr_deal d)) = Some id).
Proof.
  split; [|split].
  - unfold clientsInFollowUp. etransitivity; [apply remove_dups_length_le|].
    apply omap_length_le.
  - apply NoDup_remove_dups.
  - intros id. rewrite <- list_elem_of_In, elem_of_remove_dups.
    unfold followUpClientIds. rewrite list_elem_of_omap. split.
    + intros [d [Hd Hf]]. apply list_elem_of_In in Hd. unfold followUpDeals in Hd.
      apply List.filter_In in Hd as [Hd Hs]. apply String.eqb_eq in Hs. eauto.
    + intros [d [Hd [Hs Hf]]]. exists d. split; [|exact Hf].
      apply list_elem_of_In. unfold followUpDeals. apply List.filter_In.
      split; [exact Hd|]. apply String.eqb_eq. exact Hs.
Qed.

(* ================================================================= *)
(** ** Properties of the Clients search *)













(** The "Closed This Month" figure of the dashboard counts only deals in a
    stage "Closed", "closed" or "won" whose [created_at] is a valid date not
    before the first day of the month; those in "closed" or "won" are shown
    in no column of the Pipeline page, whose closed column is "Closed". *)
Theorem closedThisMonth_pipeline parseDate firstDayOfMonth deals :
  (forall d, In d (closedThisMonth parseDate firstDayOfMonth deals) ->
     In d deals /\ In (dr_stage d) ["Closed"; "closed"; "won"] /\
     exists t, parseDate (dr_created_at d) = Some t /\ (firstDayOfMonth <= t)%Z) /\
  (forall d, In d (closedThisMonth parseDate firstDayOfMonth deals) -> dr_stage d <> "Closed" ->
     forall sid col, In (sid, col) (pipeline_stages deals) -> ~ In d col).
Proof.
  assert (H : forall d, In d (closedThisMonth parseDate firstDayOfMonth deals) ->
     In d deals /\ In (dr_stage d) ["Closed"; "closed"; "won"] /\
     exists t, parseDate (dr_created_at d) = Some t /\ (firstDayOfMonth <= t)%Z).
  { intros d Hd. unfold closedThisMonth in Hd. apply List.filter_In in Hd as [Hin Hc].
    split; [exact Hin|].
    destruct (String.eqb_spec (dr_stage d) "Closed") as [E1|];
    destruct (String.eqb_spec (dr_stage d) "closed") as [E2|];
    destruct (String.eqb_spec (dr_stage d) "won") as [E3|]; simpl in Hc; try discriminate;
    (destruct (parseDate (dr_created_at d)) as [t|] eqn:Hp; [|discriminate]);
    apply Z.leb_le in Hc; (split; [simpl; intuition congruence | eauto]). }
  split; [exact H|].
  intros d Hd Hne sid col Hc Hin. destruct (H d Hd) as [_ [Hs _]].
  unfold pipeline_stages in Hc. apply List.in_map_iff in Hc as [sid' [Heq Hsid]].
  injection Heq as <- <-. apply List.filter_In in Hin as [_ Hst]. apply String.eqb_eq in Hst.
  subst sid'. unfold stageConfig in Hsid. simpl in Hs, Hsid.
  destruct Hs as [E|[E|[E|[]]]]; [congruence| |]; rewrite <- E in Hsid;
    repeat destruct Hsid as [Hsid|Hsid]; try contradiction; discriminate Hsid.
Qed.

Lemma ltb_length_trim s : truthy (JStr s) && Nat.ltb 0 (String.length (trim s)) = negb (String.eqb (trim s) "").
Proof.
  simpl. destruct (String.eqb_spec s "") as [->|Hs]; [reflexivity|]. simpl.
  destruct (trim s); reflexivity.
Qed.

(** The AI summary card shown for the latest run: when the run's
    [result_data] is stored as JSON text that parses, the card reads the
    summary and client name of the parsed value and shows the summary
    exactly when it is a string that is not blank; when the text does not
    parse, the card shows no summary and falls back to the client list's
    name, then to "Unknown Client". *)
Theorem aiSummaryCard_latestRun JSON_parse fs rest s :
  assoc "result_data" fs = JStr s -> s <> "" ->
  (forall v r, JSON_parse s = Ret v ->
     latestRun_of JSON_parse (RunsData (JArr (JObj fs :: rest))) = Ret r ->
     card_hasSummary r = match opt_get v "summary" with
                         | JStr t => negb (String.eqb (trim t) "") | _ => false end /\
     forall cn, card_clientName r cn = js_or (js_or (opt_get v "clientName") cn) (JStr "Unknown Client")) /\
  (forall e r, JSON_parse s = Throw e ->
     latestRun_of JSON_parse (RunsData (JArr (JObj fs :: rest))) = Ret r ->
     card_hasSummary r = false /\ forall cn, card_clientName r cn = js_or cn (JStr "Unknown Client")).
Proof.
  intros Hr Hs. unfold latestRun_of. simpl. rewrite Hr.
  destruct (String.eqb_spec s "") as [|_]; [contradiction|]. split.
  - intros v r Hv H. rewrite Hv in H. injection H as <-.
    unfold card_hasSummary, card_clientName. simpl.
    rewrite assoc_set_eq by (rewrite Hr; discriminate).
    split; [|reflexivity].
    destruct (opt_get v "summary"); try apply ltb_length_trim; simpl; rewrite ?andb_false_r; reflexivity.
  - intros e r He H. rewrite He in H. injection H as <-.
    unfold card_hasSummary, card_clientName. simpl. rewrite Hr. simpl. split; reflexivity.
Qed.

Lemma aiSummaryCard_latestRun_witness :
  assoc "result_data" [("result_data", JStr "{}")] = JStr "{}" /\ "{}" <> "" /\
  card_hasSummary (JObj [("result_data", JObj [])]) = false /\
  card_clientName (JObj [("result_data", JObj [])]) JUndef = JStr "Unknown Client".
Proof.
  split; [reflexivity|]. split; [discriminate|].
  destruct (aiSummaryCard_latestRun parse_braces [("result_data", JStr "{}")] [] "{}"
              eq_refl ltac:(discriminate)) as [Hok _].
  destruct (Hok (JObj []) (JObj [("result_data", JObj [])]) eq_refl eq_refl) as [H1 H2].
  split; [exact H1|]. rewrite H2. reflexivity.
Defined.
